(** * compute-io/naive-bayes: a shallow embedding of the multinomial and
    Gaussian naive Bayes models (lib/multinomial.js, lib/gaussian.js,
    lib/score.js, lib/index.js) and proofs of their specified behaviour.

    JavaScript numbers are modelled as real numbers extended with the
    IEEE special values [+Infinity], [-Infinity] and [NaN]; finite
    arithmetic is exact (rounding is not modelled). *)

From Stdlib Require Import Reals Lra Lia String List ZArith.
Set Warnings "-register-all".
Import ListNotations.
Open Scope R_scope.

(** ** JavaScript numbers *)

Inductive num : Type :=
| Fin (r : R)
| PInf
| NInf
| NaN.

(** [a + b] *)
Definition nadd (a b : num) : num :=
  match a, b with
  | NaN, _ | _, NaN => NaN
  | PInf, NInf | NInf, PInf => NaN
  | PInf, _ | _, PInf => PInf
  | NInf, _ | _, NInf => NInf
  | Fin x, Fin y => Fin (x + y)
  end.

(** unary [-a] *)
Definition nneg (a : num) : num :=
  match a with
  | Fin x => Fin (- x)
  | PInf => NInf
  | NInf => PInf
  | NaN => NaN
  end.

(** [a - b] *)
Definition nsub (a b : num) : num := nadd a (nneg b).

(** sign of a finite non-zero factor applied to an infinity *)
Definition inf_times (x : R) (i : num) : num :=
  if Req_dec_T x 0 then NaN
  else if Rlt_dec 0 x then i else nneg i.

(** [a * b] *)
Definition nmul (a b : num) : num :=
  match a, b with
  | NaN, _ | _, NaN => NaN
  | Fin x, Fin y => Fin (x * y)
  | Fin x, i | i, Fin x => inf_times x i
  | PInf, PInf | NInf, NInf => PInf
  | PInf, NInf | NInf, PInf => NInf
  end.

(** [a / b] *)
Definition ndiv (a b : num) : num :=
  match a, b with
  | NaN, _ | _, NaN => NaN
  | Fin x, Fin y =>
      if Req_dec_T y 0 then inf_times x PInf else Fin (x / y)
  | Fin _, _ => Fin 0
  | i, Fin y => if Req_dec_T y 0 then i else inf_times y i
  | _, _ => NaN
  end.

(** [Math.log] *)
Definition nln (a : num) : num :=
  match a with
  | Fin x =>
      if Rlt_dec 0 x then Fin (ln x)
      else if Req_dec_T x 0 then NInf else NaN
  | PInf => PInf
  | NInf | NaN => NaN
  end.

(** [Math.exp] *)
Definition nexp (a : num) : num :=
  match a with
  | Fin x => Fin (exp x)
  | PInf => PInf
  | NInf => Fin 0
  | NaN => NaN
  end.

(** [Math.sqrt] *)
Definition nsqrt (a : num) : num :=
  match a with
  | Fin x => if Rlt_dec x 0 then NaN else Fin (sqrt x)
  | PInf => PInf
  | NInf | NaN => NaN
  end.

(** [a > b]; every comparison with [NaN] is false. *)
Definition ngt (a b : num) : bool :=
  match a, b with
  | NaN, _ | _, NaN => false
  | Fin x, Fin y => if Rlt_dec y x then true else false
  | PInf, PInf => false
  | PInf, _ => true
  | NInf, _ => false
  | Fin _, PInf => false
  | Fin _, NInf => true
  end.

(** [a === b] on numbers *)
Definition nstrict_eq (a b : num) : bool :=
  match a, b with
  | Fin x, Fin y => if Req_dec_T x y then true else false
  | PInf, PInf | NInf, NInf => true
  | _, _ => false
  end.

(** truthiness of a number ([0] and [NaN] are falsy) *)
Definition ntruthy (a : num) : bool :=
  match a with
  | Fin x => if Req_dec_T x 0 then false else true
  | PInf | NInf => true
  | NaN => false
  end.

(** Two numbers name the same property of an object when their string
    forms coincide: equal finite values, equal infinities, or both [NaN]. *)
Definition nkey_eq (a b : num) : bool :=
  match a, b with
  | NaN, NaN => true
  | _, _ => nstrict_eq a b
  end.

(** [ToInt32], the conversion done when storing into an [Int32Array]:
    truncation toward zero, then reduction modulo 2^32 into the signed
    range; [NaN] and the infinities become [0]. *)
Definition trunc (x : R) : Z :=
  if Rle_dec 0 x then Int_part x else (- Int_part (- x))%Z.

Definition wrap32 (z : Z) : Z :=
  let m := (z mod 4294967296)%Z in
  if Z_lt_dec m 2147483648 then m else (m - 4294967296)%Z.

Definition ToInt32 (a : num) : num :=
  match a with
  | Fin x => Fin (IZR (wrap32 (trunc x)))
  | _ => Fin 0
  end.

(** the number [k] *)
Definition nnat (k : nat) : num := Fin (INR k).

(** [compute-sum]: left-to-right sum starting from [0] *)
Definition nsum (l : list num) : num := fold_left nadd l (Fin 0).

(** [compute-max]: [val = arr[0]], then keep [arr[i]] whenever
    [arr[i] > val]; an empty array yields [undefined] (used as [NaN]). *)
Definition nmax (l : list num) : num :=
  match l with
  | [] => NaN
  | v :: rest => fold_left (fun m x => if ngt x m then x else m) rest v
  end.

(** [compute-exp], elementwise *)
Definition vexp (l : list num) : list num := map nexp l.

(** ** dstructs-matrix: row-major [Float64Array] storage *)

Record matrix : Type := mkMatrix {
  mrows : nat;
  mcols : nat;
  mdata : list num
}.

(** [matrix( [r, c] )]: a zero-filled matrix *)
Definition matrix_zeros (r c : nat) : matrix :=
  mkMatrix r c (repeat (Fin 0) (r * c)).

(** [m.get( i, j )] reads [data[ i*cols + j ]]; no bounds check against
    the shape, and a read past the data is [undefined] ([NaN] here). *)
Definition mget (m : matrix) (i j : nat) : num :=
  nth (i * mcols m + j) (mdata m) NaN.

Fixpoint set_nth {A} (n : nat) (l : list A) (v : A) : list A :=
  match n, l with
  | _, [] => []
  | O, _ :: t => v :: t
  | S k, h :: t => h :: set_nth k t v
  end.

(** [m.set( i, j, v )] *)
Definition mset (m : matrix) (i j : nat) (v : num) : matrix :=
  mkMatrix (mrows m) (mcols m) (set_nth (i * mcols m + j) (mdata m) v).

(** [m.mget( ids, [j] )]: the entries of column [j] at rows [ids] *)
Definition mget_col (m : matrix) (ids : list nat) (j : nat) : list num :=
  map (fun r => mget m r j) ids.

(** [m.mget( [i], null ).data]: the entries of row [i] *)
Definition mget_row (m : matrix) (i : nat) : list num :=
  map (fun k => mget m i k) (seq 0 (mcols m)).

(** ** JavaScript values, as far as the library inspects them *)

Inductive jsval : Type :=
| JUndef
| JNull
| JBool (b : bool)
| JNum (x : num)
| JStr (s : string)
| JArr (xs : list jsval)
| JMat (m : matrix)
| JObj (fs : list (string * jsval)).

Inductive js_error : Type :=
| TypeError
| RangeError
| Error.

Inductive result (A : Type) : Type :=
| Ok (a : A)
| Throw (e : js_error).
Arguments Ok {A} a.
Arguments Throw {A} e.

(** truthiness, as used by [a || b] and [a ? b : c] *)
Definition truthy (v : jsval) : bool :=
  match v with
  | JUndef | JNull => false
  | JBool b => b
  | JNum x => ntruthy x
  | JStr s => match s with EmptyString => false | _ => true end
  | JArr _ | JMat _ | JObj _ => true
  end.

(** [ToNumber] of an array element stored into a [Float64Array], and of an
    operand of [*] or [-]; observations are arrays of numbers, so string
    elements are not modelled (they are mapped to [NaN]). *)
Definition as_num (v : jsval) : num :=
  match v with
  | JNum x => x
  | JNull => Fin 0
  | JBool b => if b then Fin 1 else Fin 0
  | _ => NaN
  end.

(** [v.length] for the values that have one *)
Definition js_length (v : jsval) : option nat :=
  match v with
  | JArr xs => Some (length xs)
  | JStr s => Some (String.length s)
  | JMat m => Some (length (mdata m))
  | _ => None
  end.

(** [v[i]]: a missing index reads [undefined]; a matrix object has no
    index properties *)
Definition js_index (v : jsval) (i : nat) : jsval :=
  match v with
  | JArr xs => nth i xs JUndef
  | JStr s =>
      match String.get i s with
      | Some ch => JStr (String ch EmptyString)
      | None => JUndef
      end
  | _ => JUndef
  end.

(** [===] *)
Definition strict_eq (a b : jsval) : bool :=
  match a, b with
  | JUndef, JUndef | JNull, JNull => true
  | JBool x, JBool y => Bool.eqb x y
  | JNum x, JNum y => nstrict_eq x y
  | JStr s, JStr t => String.eqb s t
  | _, _ => false
  end.

(** validate.io-array-like: a value with a non-negative integer length *)
Definition isArrayLike (v : jsval) : bool :=
  match js_length v with Some _ => true | None => false end.

(** validate.io-array-array: a non-empty array whose elements are arrays *)
Definition isArrayArray (v : jsval) : bool :=
  match v with
  | JArr ((_ :: _) as xs) =>
      forallb (fun e => match e with JArr _ => true | _ => false end) xs
  | _ => false
  end.

(** validate.io-matrix-like *)
Definition isMatrixLike (v : jsval) : bool :=
  match v with JMat _ => true | _ => false end.

(** validate.io-number-primitive *)
Definition isNumber (v : jsval) : bool :=
  match v with JNum NaN => false | JNum _ => true | _ => false end.

Definition arr_elems (v : jsval) : list jsval :=
  match v with JArr xs => xs | _ => [] end.

(** the matrix compute-to-matrix builds: [rows x cols] float64 entries,
    [cols] being the length of the first row, filled by
    [out.set( i, j, arr[i][j] )]. *)
Definition fill_matrix (v : jsval) : matrix :=
  let rows := arr_elems v in
  let c := length (arr_elems (nth 0 rows JUndef)) in
  mkMatrix (length rows) c
    (flat_map (fun r => map (fun j => as_num (nth j (arr_elems r) JUndef)) (seq 0 c))
       rows).

(** the check compute-to-matrix makes first: every nested array has the
    length of the first one *)
Definition is_rectangular (v : jsval) : bool :=
  let rows := arr_elems v in
  let c := length (arr_elems (nth 0 rows JUndef)) in
  forallb (fun r => Nat.eqb (length (arr_elems r)) c) rows.

(** compute-to-matrix: throws a plain [Error] when the nested arrays
    differ in length *)
Definition toMatrix (v : jsval) : result matrix :=
  if is_rectangular v then Ok (fill_matrix v) else Throw Error.

(** [if ( isArrayArray( x ) ) { x = toMatrix( x ); }] *)
Definition matrix_arg (x : jsval) : result jsval :=
  if isArrayArray x then
    match toMatrix x with Ok xm => Ok (JMat xm) | Throw e => Throw e end
  else Ok x.

(** an observation [x] read as [x[0], x[1], ...] *)
Definition vec_of (v : jsval) : list num := map as_num (arr_elems v).

(** [x[j]] on an observation; past its end, [undefined] acts as [NaN] *)
Definition vat (v : list num) (j : nat) : num := nth j v NaN.

(** [new Array( len )]: a number makes [len] holes (read as [undefined]),
    an invalid length throws, any other value makes the one-element array
    [[len]]. *)
Definition new_Array (len : jsval) : result (list jsval) :=
  match len with
  | JNum (Fin r) =>
      if Rle_dec 0 r then
        if Req_dec_T r (IZR (trunc r)) then Ok (repeat JUndef (Z.to_nat (trunc r)))
        else Throw RangeError
      else Throw RangeError
  | JNum _ => Throw RangeError
  | _ => Ok [len]
  end.

(** [ret[ i ] = v] on an array: overwrite, or extend (with holes) *)
Definition arr_assign (l : list jsval) (i : nat) (v : jsval) : list jsval :=
  if Nat.ltb i (length l) then set_nth i l v
  else l ++ repeat JUndef (i - length l) ++ [v].

(** ** Objects keyed by class label ([prior]) *)

Fixpoint obj_get (o : list (num * num)) (k : num) : option num :=
  match o with
  | [] => None
  | (k', v) :: t => if nkey_eq k' k then Some v else obj_get t k
  end.

Fixpoint obj_set (o : list (num * num)) (k v : num) : list (num * num) :=
  match o with
  | [] => [(k, v)]
  | (k', v') :: t =>
      if nkey_eq k' k then (k', v) :: t else (k', v') :: obj_set t k v
  end.

(** [this.prior[ this.classes[ i ] ]] used as a number: a missing entry is
    [undefined], which turns every sum it enters into [NaN]. *)
Definition prior_at (prior : list (num * num)) (classes : list num) (i : nat) : num :=
  match nth_error classes i with
  | Some c => match obj_get prior c with Some v => v | None => NaN end
  | None => NaN
  end.

(** [this.classes[ i ]] as a returned label *)
Definition label_at (classes : list num) (i : nat) : jsval :=
  match nth_error classes i with Some c => JNum c | None => JUndef end.

(** ** Shared pieces of predictOne / predict / predictProbs *)

(** the argmax loop: [max = logLik[0]; argmax = classes[0]], then for
    every [i < nClasses], [if ( val > max ) { max = val; argmax = classes[i]; }] *)
Definition argmax_step (classes logLik : list num) (st : num * jsval) (i : nat)
    : num * jsval :=
  let val := nth i logLik NaN in
  if ngt val (fst st) then (val, label_at classes i) else st.

Definition argmax_scan (classes : list num) (logLik : list num) : jsval :=
  snd (fold_left (argmax_step classes logLik) (seq 0 (length classes))
                 (nth 0 logLik NaN, label_at classes 0)).

(** compute-subtract with a scalar [x]: [x] must pass
    validate.io-number-primitive, which [NaN] fails; then elementwise *)
Definition vsubtract (l : list num) (a : num) : result (list num) :=
  match a with
  | NaN => Throw TypeError
  | _ => Ok (map (fun x => nsub x a) l)
  end.

(** [a = max( logLik ); denom = a + ln( sum( exp( subtract( logLik, a ) ) ) );
     exp( subtract( logLik, denom ) )] *)
Definition normalize (logLik : list num) : result (list num) :=
  let a := nmax logLik in
  match vsubtract logLik a with
  | Throw e => Throw e
  | Ok d1 =>
      let denom := nadd a (nln (nsum (vexp d1))) in
      match vsubtract logLik denom with
      | Throw e => Throw e
      | Ok d2 => Ok (vexp d2)
      end
  end.

Definition num_array (l : list num) : jsval := JArr (map JNum l).

(** the row loop of Case A of [predictProbs]:
    [ret[ i ] = exp( subtract( logLik, denom ) )] for [i < nrow]; a throw
    in a row ends the call *)
Definition probs_step (rowLik : nat -> list num) (acc : result (list jsval)) (i : nat)
  : result (list jsval) :=
  match acc with
  | Throw e => Throw e
  | Ok ret =>
      match normalize (rowLik i) with
      | Throw e => Throw e
      | Ok ps => Ok (arr_assign ret i (num_array ps))
      end
  end.

Definition probs_rows (rowLik : nat -> list num) (nrow : nat) (ret : list jsval)
  : result (list jsval) :=
  fold_left (probs_step rowLik) (seq 0 nrow) (Ok ret).

(** ** lib/multinomial.js *)

Record MultinomialFit : Type := mkMultinomialFit {
  mn_n : nat;
  mn_p : nat;
  mn_classes : list num;
  mn_nclass : nat;
  mn_alpha : num;
  mn_prior : list (num * num);
  mn_cprob : matrix
}.

(** [ids]: the row indices [j < n] with [y[ j ] === c] *)
Definition class_rows (y : list num) (n : nat) (c : num) : list nat :=
  filter (fun j => match nth_error y j with
                   | Some v => nstrict_eq v c
                   | None => false
                   end) (seq 0 n).

(** [counts = new Int32Array( p ); counts[ j ] = sum( x.mget( ids, [j] ) )] *)
Definition class_counts (x : matrix) (ids : list nat) (p : nat) : list num :=
  map (fun j => ToInt32 (nsum (mget_col x ids j))) (seq 0 p).

(** [ln( counts[ j ] + alpha ) - ln( totalCount + p * alpha )] *)
Definition cprob_entry (counts : list num) (totalCount alpha : num) (p j : nat) : num :=
  nsub (nln (nadd (nth j counts (Fin 0)) alpha))
       (nln (nadd totalCount (nmul (nnat p) alpha))).

(** one iteration [i] of the class loop of [fitMultinomial] *)
Definition fitMultinomial_step (x : matrix) (y : list num) (n p : nat) (alpha : num)
    (classes : list num) (st : list (num * num) * matrix) (i : nat)
    : list (num * num) * matrix :=
  let c := nth i classes NaN in
  let ids := class_rows y n c in
  let nc := length ids in
  let prior := obj_set (fst st) c (nln (ndiv (nnat nc) (nnat n))) in
  let counts := class_counts x ids p in
  let totalCount := nsum counts in
  let cprob := fold_left
                 (fun m j => mset m j i (cprob_entry counts totalCount alpha p j))
                 (seq 0 p) (snd st) in
  (prior, cprob).

(** [fitMultinomial( x, y )]: the final [prior] object and [cprob] matrix *)
Definition fitMultinomial (x : matrix) (y : list num) (n p : nat) (alpha : num)
    (classes : list num) : list (num * num) * matrix :=
  fold_left (fitMultinomial_step x y n p alpha classes)
            (seq 0 (length classes)) ([], matrix_zeros p (length classes)).

(** [new MultinomialFit( x, y, alpha )]; [unique] is compute-unique. *)
Definition new_MultinomialFit (unique : list num -> list num) (x : matrix)
    (y : list num) (alpha : num) : MultinomialFit :=
  let n := mrows x in
  let p := mcols x in
  let classes := unique y in
  let fit := fitMultinomial x y n p alpha classes in
  mkMultinomialFit n p classes (length classes) alpha (fst fit) (snd fit).

(** [x[ j ] ? x[ j ] * this.cprob.get( j, i ) : 0] *)
Definition mn_term (cprob : matrix) (xj : num) (j i : nat) : num :=
  if ntruthy xj then nmul xj (mget cprob j i) else Fin 0.

(** [logLik[ i ]] in [predictOne( x )] *)
Definition mn_loglik_vec (m : MultinomialFit) (v : list num) (i : nat) : num :=
  fold_left (fun acc j => nadd acc (mn_term (mn_cprob m) (vat v j) j i))
            (seq 0 (mn_p m)) (prior_at (mn_prior m) (mn_classes m) i).

(** [calcMultinomProb( x, i, j )]: the parameter [j] is reused as the
    loop counter, so its value is never read. *)
Definition calcMultinomProb (m : MultinomialFit) (v : list num) (i j : nat) : num :=
  fold_left (fun res j => nadd res (mn_term (mn_cprob m) (vat v j) j i))
            (seq 0 (mn_p m)) (prior_at (mn_prior m) (mn_classes m) i).

(** [logLik[ j ]] for row [i] in Case A of [predict] and [predictProbs]:
    [x.get( i, k ) ? x.get( i, k ) * this.cprob.get( k, j ) : 0] *)
Definition mn_loglik_mat (m : MultinomialFit) (x : matrix) (i j : nat) : num :=
  fold_left (fun acc k => nadd acc (mn_term (mn_cprob m) (mget x i k) k j))
            (seq 0 (mn_p m)) (prior_at (mn_prior m) (mn_classes m) j).

(** [logLik[ j ]] in Case B of [predictProbs]:
    [val = x[ k ] * this.cprob.get( k, j )] *)
Definition mn_loglik_probs (m : MultinomialFit) (v : list num) (j : nat) : num :=
  fold_left (fun acc k => nadd acc (nmul (vat v k) (mget (mn_cprob m) k j)))
            (seq 0 (mn_p m)) (prior_at (mn_prior m) (mn_classes m) j).

(** [predictOne( x )] *)
Definition mn_predictOne (m : MultinomialFit) (v : list num) : jsval :=
  argmax_scan (mn_classes m)
              (map (mn_loglik_vec m v) (seq 0 (length (mn_classes m)))).

(** [predict( x )] *)
Definition mn_predict (m : MultinomialFit) (x : jsval) : result jsval :=
  match matrix_arg x with
  | Throw e => Throw e
  | Ok (JMat xm) =>
      Ok (JArr (map (fun i => argmax_scan (mn_classes m)
                                (map (mn_loglik_mat m xm i) (seq 0 (length (mn_classes m)))))
                    (seq 0 (mrows xm))))
  | Ok x => Ok (mn_predictOne m (vec_of x))
  end.

(** [predictProbs( x )]; in Case A, [ret = new Array( nrow )] runs while
    the hoisted [nrow] is still [undefined]. *)
Definition mn_predictProbs (m : MultinomialFit) (x : jsval) : result jsval :=
  match matrix_arg x with
  | Throw e => Throw e
  | Ok (JMat xm) =>
      let nrow_unassigned := JUndef in
      match new_Array nrow_unassigned with
      | Throw e => Throw e
      | Ok ret =>
          let nrow := mrows xm in
          match probs_rows (fun i => map (mn_loglik_mat m xm i) (seq 0 (mn_nclass m)))
                           nrow ret with
          | Throw e => Throw e
          | Ok ret => Ok (JArr ret)
          end
      end
  | Ok x =>
      match normalize (map (mn_loglik_probs m (vec_of x)) (seq 0 (mn_nclass m))) with
      | Throw e => Throw e
      | Ok ps => Ok (num_array ps)
      end
  end.

(** ** lib/gaussian.js *)

Record GaussianFit : Type := mkGaussianFit {
  g_n : nat;
  g_p : nat;
  g_classes : list num;
  g_nclass : nat;
  g_prior : list (num * num);
  g_mu : matrix;
  g_sigma : matrix
}.

(** compute-mean; for an empty array the value it returns is stored as
    [0] by the [Float64Array] *)
Definition nmean (l : list num) : num :=
  match l with
  | [] => Fin 0
  | _ => ndiv (nsum l) (nnat (length l))
  end.

(** compute-stdev: the sample standard deviation (divisor [N - 1]), and
    [0] for fewer than two values *)
Definition nstdev (l : list num) : num :=
  if Nat.ltb (length l) 2 then Fin 0
  else
    let mu := nmean l in
    nsqrt (ndiv (nsum (map (fun v => nmul (nsub v mu) (nsub v mu)) l))
                (nnat (length l - 1))).

(** one iteration [i] of the class loop of [fitGaussian] *)
Definition fitGaussian_step (x : matrix) (y : list num) (n p : nat) (classes : list num)
    (st : list (num * num) * matrix * matrix) (i : nat)
    : list (num * num) * matrix * matrix :=
  let '(prior, mu, sigma) := st in
  let c := nth i classes NaN in
  let ids := class_rows y n c in
  let nc := length ids in
  let prior := obj_set prior c (nln (ndiv (nnat nc) (nnat n))) in
  let '(mu, sigma) :=
    fold_left (fun ms j =>
                 (mset (fst ms) j i (nmean (mget_col x ids j)),
                  mset (snd ms) j i (nstdev (mget_col x ids j))))
              (seq 0 p) (mu, sigma) in
  (prior, mu, sigma).

(** [new GaussianFit( x, y )] *)
Definition new_GaussianFit (unique : list num -> list num) (x : matrix) (y : list num)
    : GaussianFit :=
  let n := mrows x in
  let p := mcols x in
  let classes := unique y in
  let '(prior, mu, sigma) :=
    fold_left (fitGaussian_step x y n p classes) (seq 0 (length classes))
              ([], matrix_zeros p (length classes), matrix_zeros p (length classes)) in
  mkGaussianFit n p classes (length classes) prior mu sigma.

(** [-0.5 * ln( 2 * PI ) * this.sigma.get( j, i )
     - 0.5 * ( x[ j ] - this.mu.get( j, i ) ) / this.sigma.get( j, i )] *)
Definition gauss_term (m : GaussianFit) (xj : num) (j i : nat) : num :=
  nsub (nmul (nmul (Fin (- (1 / 2))) (nln (nmul (Fin 2) (Fin PI)))) (mget (g_sigma m) j i))
       (ndiv (nmul (Fin (1 / 2)) (nsub xj (mget (g_mu m) j i))) (mget (g_sigma m) j i)).

(** [calcGaussianProb( x, i )] *)
Definition calcGaussianProb (m : GaussianFit) (v : list num) (i : nat) : num :=
  fold_left (fun res j => nadd res (gauss_term m (vat v j) j i))
            (seq 0 (g_p m)) (prior_at (g_prior m) (g_classes m) i).

(** [predictOne( x )] *)
Definition g_predictOne (m : GaussianFit) (v : list num) : jsval :=
  argmax_scan (g_classes m)
              (map (calcGaussianProb m v) (seq 0 (length (g_classes m)))).

(** [predict( x )]; rows are read with [x.mget( [i], null ).data] *)
Definition g_predict (m : GaussianFit) (x : jsval) : result jsval :=
  match matrix_arg x with
  | Throw e => Throw e
  | Ok (JMat xm) =>
      Ok (JArr (map (fun i => argmax_scan (g_classes m)
                                (map (calcGaussianProb m (mget_row xm i))
                                     (seq 0 (length (g_classes m)))))
                    (seq 0 (mrows xm))))
  | Ok x => Ok (g_predictOne m (vec_of x))
  end.

(** [predictProbs( x )], with the same [new Array( nrow )] as above *)
Definition g_predictProbs (m : GaussianFit) (x : jsval) : result jsval :=
  match matrix_arg x with
  | Throw e => Throw e
  | Ok (JMat xm) =>
      let nrow_unassigned := JUndef in
      match new_Array nrow_unassigned with
      | Throw e => Throw e
      | Ok ret =>
          let nrow := mrows xm in
          match probs_rows (fun i => map (calcGaussianProb m (mget_row xm i))
                                         (seq 0 (g_nclass m)))
                           nrow ret with
          | Throw e => Throw e
          | Ok ret => Ok (JArr ret)
          end
      end
  | Ok x =>
      match normalize (map (calcGaussianProb m (vec_of x)) (seq 0 (g_nclass m))) with
      | Throw e => Throw e
      | Ok ps => Ok (num_array ps)
      end
  end.

(** ** lib/score.js, shared by both models through [this.predict] *)

Definition score (predict : jsval -> result jsval) (x y : jsval) : result num :=
  if negb (isArrayLike x) then Throw TypeError
  else if negb (isArrayLike y) then Throw TypeError
  else
    match predict x with
    | Throw e => Throw e
    | Ok yhat =>
        let n := match js_length y with Some k => k | None => O end in
        let accuracy :=
          fold_left (fun acc i =>
                       if strict_eq (js_index yhat i) (js_index y i)
                       then nadd acc (Fin 1) else acc)
                    (seq 0 n) (Fin 0) in
        Ok (ndiv accuracy (nnat n))
    end.

(** ** lib/index.js *)

(** [opts.k]: reading a property of [undefined] or [null] throws *)
Definition get_prop (o : jsval) (k : string) : result jsval :=
  match o with
  | JUndef | JNull => Throw TypeError
  | JObj fs =>
      match find (fun f => String.eqb (fst f) k) fs with
      | Some f => Ok (snd f)
      | None => Ok JUndef
      end
  | _ => Ok JUndef
  end.

(** [opts.hasOwnProperty( k )] *)
Definition has_own (o : jsval) (k : string) : result bool :=
  match o with
  | JUndef | JNull => Throw TypeError
  | JObj fs => Ok (existsb (fun f => String.eqb (fst f) k) fs)
  | _ => Ok false
  end.

(** The guard [arguments > 2] compares the [arguments] object itself with
    [2]: the object converts to the string "[object Arguments]", whose
    numeric value is [NaN]. *)
Definition arguments_as_number : num := NaN.

(** [multinomNB( x, y[, opts] )], called with the argument list [args];
    on success it yields the arguments [(x, y, alpha)] passed to
    [new MultinomialFit]. *)
Definition multinomNB (args : list jsval) : result (matrix * jsval * jsval) :=
  let x := nth 0 args JUndef in
  let y := nth 1 args JUndef in
  let opts := nth 2 args JUndef in
  let xm := if isArrayArray x then toMatrix x
            else match x with
                 | JMat m => Ok m
                 | _ => Throw TypeError
                 end in
  match xm with
  | Throw e => Throw e
  | Ok xm =>
      if negb (isArrayLike y) then Throw TypeError
      else
        let check :=
          if ngt arguments_as_number (Fin 2) then
            match has_own opts "alpha" with
            | Throw e => Throw e
            | Ok false => Ok tt
            | Ok true =>
                match get_prop opts "alpha" with
                | Throw e => Throw e
                | Ok a => if isNumber a then Ok tt else Throw TypeError
                end
            end
          else Ok tt in
        match check with
        | Throw e => Throw e
        | Ok _ =>
            match get_prop opts "alpha" with
            | Throw e => Throw e
            | Ok a => Ok (xm, y, if truthy a then a else JNum (Fin 1))
            end
        end
  end.

(** [gaussianNB( x, y )], called with the argument list [args]; on
    success it yields the arguments [(x, y)] passed to [new GaussianFit]. *)
Definition gaussianNB (args : list jsval) : result (matrix * jsval) :=
  let x := nth 0 args JUndef in
  let y := nth 1 args JUndef in
  let xm := if isArrayArray x then toMatrix x
            else match x with
                 | JMat m => Ok m
                 | _ => Throw TypeError
                 end in
  match xm with
  | Throw e => Throw e
  | Ok xm =>
      if negb (isArrayLike y) then Throw TypeError
      else Ok (xm, y)
  end.

(** ** Concrete inputs *)

(** A model of compute-unique used for concrete runs: the distinct
    values, in first-occurrence order. *)
Fixpoint unique_first (l : list num) : list num :=
  match l with
  | [] => []
  | h :: t => h :: filter (fun v => negb (nstrict_eq v h)) (unique_first t)
  end.

(** [[ [1] ]] and the one-class model fitted on it with [y = [0]] *)
Definition x_one : jsval := JArr [JArr [JNum (Fin 1)]].
Definition mn_one : MultinomialFit :=
  new_MultinomialFit unique_first (fill_matrix x_one) [Fin 0] (Fin 1).

(** two rows [[ [1], [1] ]] *)
Definition x_two_rows : jsval := JArr [JArr [JNum (Fin 1)]; JArr [JNum (Fin 1)]].

(** two nested arrays of different lengths: [[ [1], [] ]] *)
Definition x_ragged : jsval := JArr [JArr [JNum (Fin 1)]; JArr []].

(** the number of positions [k < n] with [yhat[ k ] === y[ k ]] *)
Definition match_count (yhat y : jsval) (n : nat) : nat :=
  length (filter (fun i => strict_eq (js_index yhat i) (js_index y i)) (seq 0 n)).

(** right-nested sum [a0 + (a1 + ( ... + 0))] of the claims' formulas *)
Definition nsum_r (l : list num) : num := fold_right nadd (Fin 0) l.

(** the real sum [x0 + (x1 + ( ... + 0))] *)
Definition rsum (l : list R) : R := fold_right Rplus 0 l.

(** the claim's [counts[j]]: the sum of [x[row][j]] over the rows whose
    label is [c] *)
Definition class_col_sum (x : matrix) (y : list num) (c : num) (j : nat) : num :=
  nsum (mget_col x (class_rows y (mrows x) c) j).

(** one row [[2^32 + 5, 1]] with label [0]: its first column sum does not
    fit in an [Int32Array] entry *)
Definition x_big : matrix := mkMatrix 1 2 [Fin 4294967301; Fin 1].
Definition mn_big : MultinomialFit :=
  new_MultinomialFit unique_first x_big [Fin 0] (Fin 1).

(** the rows [[a, 0], [0, 1]] with labels [[0, 1]], fitted with [alpha = 1] *)
Definition x_diag (a : R) : matrix := mkMatrix 2 2 [Fin a; Fin 0; Fin 0; Fin 1].
Definition y_diag : list num := [Fin 0; Fin 1].
Definition mn_diag (a : R) : MultinomialFit :=
  new_MultinomialFit unique_first (x_diag a) y_diag (Fin 1).

(** [a = 2^31]: the count of feature [0] in class [0] wraps to [-2^31] *)
Definition mn_wrap : MultinomialFit := mn_diag 2147483648.

(** [a = 1], and a two-row matrix with one column: [[ [0], [1] ]] *)
Definition mn_id : MultinomialFit := mn_diag 1.
Definition x_narrow : matrix := mkMatrix 2 1 [Fin 0; Fin 1].

(** the rows [[0, 0], [2, 2], [0, 0], [2, 2]] with labels [[0, 0, 1, 1]]:
    two classes fitted on the same values, so every observation ties *)
Definition x_sym : matrix :=
  mkMatrix 4 2 [Fin 0; Fin 0; Fin 2; Fin 2; Fin 0; Fin 0; Fin 2; Fin 2].
Definition y_sym : list num := [Fin 0; Fin 0; Fin 1; Fin 1].
Definition g_sym : GaussianFit := new_GaussianFit unique_first x_sym y_sym.

(** the rows [[0], [2], [5]] with labels [[0, 0, 1]]: class [1] has the
    single training row [2] *)
Definition x_single : matrix := mkMatrix 3 1 [Fin 0; Fin 2; Fin 5].
Definition y_single : list num := [Fin 0; Fin 0; Fin 1].
Definition g_single : GaussianFit := new_GaussianFit unique_first x_single y_single.

(** * Proofs *)

(** ** Basic facts about the number model *)

Ltac decide_R :=
  repeat match goal with
  | |- context [Req_dec_T ?a ?b] => destruct (Req_dec_T a b); try (exfalso; lra)
  | |- context [Rlt_dec ?a ?b] => destruct (Rlt_dec a b); try (exfalso; lra)
  | |- context [Rle_dec ?a ?b] => destruct (Rle_dec a b); try (exfalso; lra)
  end.

Lemma ngt_irrefl (a : num) : ngt a a = false.
Proof. destruct a; simpl; auto; decide_R; reflexivity. Qed.

Lemma nstrict_eq_fin_refl (r : R) : nstrict_eq (Fin r) (Fin r) = true.
Proof. simpl; decide_R; reflexivity. Qed.

Lemma nadd_0_l (a : num) : nadd (Fin 0) a = a.
Proof. destruct a; simpl; auto; f_equal; lra. Qed.

Lemma nadd_assoc (a b c : num) : nadd a (nadd b c) = nadd (nadd a b) c.
Proof. destruct a, b, c; simpl; auto; f_equal; lra. Qed.

(** With a single class, the argmax loop returns that class. *)
Lemma argmax_scan_single (c : num) (l : list num) :
  argmax_scan [c] l = JNum c.
Proof. unfold argmax_scan, argmax_step; simpl; rewrite ngt_irrefl; reflexivity. Qed.

(** ** Counting loop of [score] *)

Lemma score_fold_count (f : nat -> bool) (l : list nat) (k : nat) :
  fold_left (fun acc i => if f i then nadd acc (Fin 1) else acc) l (nnat k)
  = nnat (k + length (filter f l)).
Proof.
  revert k; induction l as [|i l IH]; intro k; simpl.
  - rewrite Nat.add_0_r; reflexivity.
  - destruct (f i); simpl.
    + unfold nnat at 1; simpl.
      replace (Fin (INR k + 1)) with (nnat (S k)) by (unfold nnat; rewrite S_INR; reflexivity).
      rewrite IH; unfold nnat; do 2 f_equal; lia.
    + rewrite IH; reflexivity.
Qed.

Lemma score_value (predict : jsval -> result jsval) (x y yhat : jsval) (n : nat) :
  isArrayLike x = true -> js_length y = Some n -> predict x = Ok yhat ->
  score predict x y = Ok (ndiv (nnat (match_count yhat y n)) (nnat n)).
Proof.
  intros Hx Hy Hp; unfold score, isArrayLike; rewrite Hy, Hp.
  unfold isArrayLike in Hx; rewrite Hx; simpl.
  change (Fin 0) with (nnat 0); rewrite score_fold_count; reflexivity.
Qed.


Lemma matrix_arg_rect (x : jsval) :
  isArrayArray x = true -> is_rectangular x = true -> matrix_arg x = Ok (JMat (fill_matrix x)).
Proof. intros Ha Hr; unfold matrix_arg, toMatrix; rewrite Ha, Hr; reflexivity. Qed.


Lemma matrix_arg_other (x : jsval) : isArrayArray x = false -> matrix_arg x = Ok x.
Proof. intro Ha; unfold matrix_arg; rewrite Ha; reflexivity. Qed.

Lemma isArrayLike_length (y : jsval) :
  isArrayLike y = true -> exists n, js_length y = Some n.
Proof. unfold isArrayLike; destruct (js_length y); [eauto | discriminate]. Qed.


Lemma mn_one_classes : mn_classes mn_one = [Fin 0].
Proof. reflexivity. Qed.

(** A one-class model predicts its class on every row of a matrix. *)
Lemma mn_predict_one_class (m : MultinomialFit) (c : num) (x : jsval) :
  mn_classes m = [c] -> isArrayArray x = true -> is_rectangular x = true ->
  mn_predict m x = Ok (JArr (repeat (JNum c) (mrows (fill_matrix x)))).
Proof.
  intros Hc Hx Hr; unfold mn_predict; rewrite (matrix_arg_rect x Hx Hr), Hc.
  erewrite map_ext by (intro; apply argmax_scan_single).
  rewrite map_const, length_seq; reflexivity.
Qed.




Lemma nadd_0_r (a : num) : nadd a (Fin 0) = a.
Proof. destruct a; simpl; auto; f_equal; lra. Qed.

(** An accumulating loop [res += f( j )] adds up the terms. *)
Lemma fold_nadd_sum (f : nat -> num) (l : list nat) (acc : num) :
  fold_left (fun a j => nadd a (f j)) l acc = nadd acc (nsum_r (map f l)).
Proof.
  revert acc; induction l as [|j l IH]; intro acc; simpl.
  - rewrite nadd_0_r; reflexivity.
  - rewrite IH, nadd_assoc; reflexivity.
Qed.

Ltac decide_R_hyps :=
  repeat match goal with
  | H : context [Req_dec_T ?a ?b] |- _ => destruct (Req_dec_T a b)
  | H : context [Rlt_dec ?a ?b] |- _ => destruct (Rlt_dec a b)
  | |- context [Req_dec_T ?a ?b] => destruct (Req_dec_T a b)
  | |- context [Rlt_dec ?a ?b] => destruct (Rlt_dec a b)
  end.





Lemma nth_map_seq_lt (f : nat -> num) (n j : nat) (d : num) :
  (j < n)%nat -> nth j (map f (seq 0 n)) d = f j.
Proof.
  intro Hj. rewrite nth_indep with (d' := f 0%nat) by (rewrite length_map, length_seq; lia).
  rewrite map_nth, seq_nth by lia; reflexivity.
Qed.

(** ** Log-sum-exp normalisation over finite values *)

Lemma fold_nadd_fin (xs : list R) (a : R) :
  fold_left nadd (map Fin xs) (Fin a) = Fin (a + rsum xs).
Proof.
  revert a; induction xs as [|x xs IH]; intro a; simpl.
  - f_equal; lra.
  - rewrite IH; f_equal; lra.
Qed.

Lemma nsum_fin (xs : list R) : nsum (map Fin xs) = Fin (rsum xs).
Proof. unfold nsum; rewrite fold_nadd_fin; f_equal; lra. Qed.



Lemma rsum_map_mult (f : R -> R) (c : R) (l : list R) :
  rsum (map (fun r => f r * c) l) = rsum (map f l) * c.
Proof. induction l as [|r l IH]; simpl; [ring | rewrite IH; ring]. Qed.




(** ** Objects and matrices *)

Lemma nkey_eq_spec (a b : num) : nkey_eq a b = true <-> a = b.
Proof.
  destruct a, b; simpl; split; intro H; try discriminate; try congruence;
    decide_R_hyps; subst; try congruence; reflexivity.
Qed.

Lemma obj_get_set_same (o : list (num * num)) (k v : num) :
  obj_get (obj_set o k v) k = Some v.
Proof.
  induction o as [|[k' v'] o IH]; simpl.
  - replace (nkey_eq k k) with true by (symmetry; apply nkey_eq_spec; reflexivity).
    reflexivity.
  - destruct (nkey_eq k' k) eqn:E; simpl; rewrite ?E; auto.
Qed.

Lemma obj_get_set_other (o : list (num * num)) (k v k2 : num) :
  k <> k2 -> obj_get (obj_set o k v) k2 = obj_get o k2.
Proof.
  intro Hne; induction o as [|[k' v'] o IH]; simpl.
  - destruct (nkey_eq k k2) eqn:E; auto. apply nkey_eq_spec in E; congruence.
  - destruct (nkey_eq k' k) eqn:E; simpl.
    + apply nkey_eq_spec in E; subst k'.
      destruct (nkey_eq k k2) eqn:E2; auto. apply nkey_eq_spec in E2; congruence.
    + destruct (nkey_eq k' k2); auto.
Qed.

Lemma length_set_nth {A} (k : nat) (l : list A) (v : A) :
  length (set_nth k l v) = length l.
Proof. revert k; induction l as [|h t IH]; intro k; destruct k; simpl; auto. Qed.

Lemma nth_set_nth_same {A} (k : nat) (l : list A) (v d : A) :
  (k < length l)%nat -> nth k (set_nth k l v) d = v.
Proof.
  revert k; induction l as [|h t IH]; intros k Hk; simpl in *; [lia |].
  destruct k; simpl; auto. apply IH; lia.
Qed.

Lemma nth_set_nth_other {A} (k k' : nat) (l : list A) (v d : A) :
  k <> k' -> nth k (set_nth k' l v) d = nth k l d.
Proof.
  revert k k'; induction l as [|h t IH]; intros k k' Hne; destruct k, k'; simpl; auto;
    try congruence; apply IH; lia.
Qed.

Lemma matrix_index_inj (c i i' j j' : nat) :
  (i < c)%nat -> (i' < c)%nat -> (j' * c + i' = j * c + i)%nat -> j' = j /\ i' = i.
Proof.
  intros Hi Hi' E.
  assert (Hj : j' = j).
  { assert (H : ((j' * c + i') / c = (j * c + i) / c)%nat) by (rewrite E; reflexivity).
    rewrite !Nat.div_add_l, !Nat.div_small in H by lia. lia. }
  subst j'; split; [reflexivity | lia].
Qed.

Lemma mget_mset (M : matrix) (p j i j' i' : nat) (v : num) :
  length (mdata M) = (p * mcols M)%nat ->
  (j < p)%nat -> (i < mcols M)%nat -> (j' < p)%nat -> (i' < mcols M)%nat ->
  mget (mset M j i v) j' i' =
  if Nat.eq_dec i' i then if Nat.eq_dec j' j then v else mget M j' i' else mget M j' i'.
Proof.
  intros Hlen Hj Hi Hj' Hi'; unfold mget, mset; simpl.
  destruct (Nat.eq_dec i' i) as [-> | Hne].
  - destruct (Nat.eq_dec j' j) as [-> | Hne'].
    + apply nth_set_nth_same; rewrite Hlen; nia.
    + apply nth_set_nth_other; intro E.
      apply matrix_index_inj in E; [tauto | lia | lia].
  - apply nth_set_nth_other; intro E.
    apply matrix_index_inj in E; [tauto | lia | lia].
Qed.

(** The inner loop [for ( j = 0; j < p; j++ ) cprob.set( j, i, f(j) )]
    writes column [i] at the rows it visits and nothing else. *)
Lemma fold_mset_col (M : matrix) (p i : nat) (f : nat -> num) (l : list nat) :
  length (mdata M) = (p * mcols M)%nat -> (i < mcols M)%nat ->
  (forall j, In j l -> (j < p)%nat) ->
  let M' := fold_left (fun m j => mset m j i (f j)) l M in
  mcols M' = mcols M /\ length (mdata M') = length (mdata M) /\
  (forall j' i', (j' < p)%nat -> (i' < mcols M)%nat ->
     mget M' j' i' =
     if Nat.eq_dec i' i then if in_dec Nat.eq_dec j' l then f j' else mget M j' i'
     else mget M j' i').
Proof.
  revert M; induction l as [|j l IH]; intros M Hlen Hi Hl; simpl.
  - repeat split; auto. intros j' i' _ _.
    destruct (Nat.eq_dec i' i); reflexivity.
  - assert (Hj : (j < p)%nat) by (apply Hl; simpl; auto).
    destruct (IH (mset M j i (f j))) as (Hc & Hd & Hg); simpl.
    + rewrite length_set_nth; exact Hlen.
    + exact Hi.
    + intros; apply Hl; simpl; auto.
    + simpl in Hc, Hd; rewrite length_set_nth in Hd.
      repeat split; auto. intros j' i' Hj' Hi'.
      rewrite Hg by assumption.
      rewrite (mget_mset M p j i j' i') by assumption.
      destruct (Nat.eq_dec i' i); [| reflexivity].
      destruct (in_dec Nat.eq_dec j' l), (Nat.eq_dec j j'), (Nat.eq_dec j' j);
        subst; try reflexivity; congruence.
Qed.

(** ** The fitting loop of the multinomial model *)

(** After the classes [0 .. t-1], [prior] holds [ln( nc/n )] for each of
    them and column [i] of [cprob] holds the smoothed log-probabilities of
    class [i]. *)
Lemma fitMultinomial_inv (x : matrix) (y : list num) (n p : nat) (alpha : num)
    (classes : list num) (t : nat) :
  NoDup classes -> (t <= length classes)%nat ->
  forall st, st = fold_left (fitMultinomial_step x y n p alpha classes) (seq 0 t)
                            ([], matrix_zeros p (length classes)) ->
  mcols (snd st) = length classes /\
  length (mdata (snd st)) = (p * length classes)%nat /\
  (forall i, (i < t)%nat ->
     obj_get (fst st) (nth i classes NaN)
     = Some (nln (ndiv (nnat (length (class_rows y n (nth i classes NaN)))) (nnat n)))) /\
  (forall i j, (i < t)%nat -> (j < p)%nat ->
     mget (snd st) j i
     = cprob_entry (class_counts x (class_rows y n (nth i classes NaN)) p)
                   (nsum (class_counts x (class_rows y n (nth i classes NaN)) p)) alpha p j).
Proof.
  intro Hnd; induction t as [|t IH]; intros Ht st ->.
  - simpl; rewrite repeat_length; repeat split; auto; intros; lia.
  - rewrite seq_S, fold_left_app; simpl.
    destruct (IH ltac:(lia) _ eq_refl) as (Hc & Hl & Hp & Hm).
    set (st0 := fold_left (fitMultinomial_step x y n p alpha classes) (seq 0 t)
                          ([], matrix_zeros p (length classes))) in *.
    unfold fitMultinomial_step; simpl.
    set (ids := class_rows y n (nth t classes NaN)).
    set (counts := class_counts x ids p).
    destruct (fold_mset_col (snd st0) p t
                (fun j => cprob_entry counts (nsum counts) alpha p j) (seq 0 p))
      as (Hc' & Hl' & Hg').
    + rewrite Hl, Hc; reflexivity.
    + rewrite Hc; lia.
    + intros j Hj; apply in_seq in Hj; lia.
    + split; [rewrite Hc', Hc; reflexivity |].
      split; [rewrite Hl', Hl; reflexivity |].
      split.
      * intros i Hi. destruct (Nat.eq_dec i t) as [-> | Hne].
        -- apply obj_get_set_same.
        -- rewrite obj_get_set_other; [apply Hp; lia |].
           intro E. apply (NoDup_nth classes NaN) in E; [lia | assumption | lia | lia].
      * intros i j Hi Hj. rewrite Hg' by (rewrite ?Hc; lia).
        destruct (Nat.eq_dec i t) as [-> | Hne].
        -- destruct (in_dec Nat.eq_dec j (seq 0 p)) as [_ | Hn]; [reflexivity |].
           exfalso; apply Hn, in_seq; lia.
        -- apply Hm; lia.
Qed.

Lemma Int_part_IZR (z : Z) : Int_part (IZR z) = z.
Proof.
  unfold Int_part. rewrite <- (tech_up (IZR z) (z + 1)); [lia | |].
  - rewrite plus_IZR; lra.
  - rewrite plus_IZR; lra.
Qed.

Lemma trunc_IZR (k : Z) : (0 <= k)%Z -> trunc (IZR k) = k.
Proof.
  intro Hk; unfold trunc.
  destruct (Rle_dec 0 (IZR k)) as [_ | Hn]; [apply Int_part_IZR | exfalso; apply Hn, IZR_le; lia].
Qed.

(** Storing a count in [[0, 2^31)] into an [Int32Array] keeps it. *)
Lemma ToInt32_small (k : Z) :
  (0 <= k < 2147483648)%Z -> ToInt32 (Fin (IZR k)) = Fin (IZR k).
Proof.
  intro Hk; unfold ToInt32, trunc.
  destruct (Rle_dec 0 (IZR k)) as [_ | Hn]; [| exfalso; apply Hn, IZR_le; lia].
  rewrite Int_part_IZR; unfold wrap32.
  rewrite Z.mod_small by lia.
  destruct (Z_lt_dec k 2147483648); [reflexivity | lia].
Qed.

(** When every column sum of a class is an integer in [[0, 2^31)], the
    [Int32Array] of counts holds exactly those sums. *)
Lemma class_counts_small (x : matrix) (y : list num) (c : num) (p : nat) :
  (forall j, (j < p)%nat ->
     exists k, class_col_sum x y c j = Fin (IZR k) /\ (0 <= k < 2147483648)%Z) ->
  class_counts x (class_rows y (mrows x) c) p = map (class_col_sum x y c) (seq 0 p).
Proof.
  intro H. unfold class_counts. apply map_ext_in. intros j Hj. apply in_seq in Hj.
  destruct (H j ltac:(lia)) as (k & Hk & Hr). unfold class_col_sum in Hk |- *.
  rewrite Hk. apply ToInt32_small; assumption.
Qed.

(** ** The fitted models [mn_diag a] *)

Lemma mn_diag_classes (a : R) : mn_classes (mn_diag a) = [Fin 0; Fin 1].
Proof. unfold mn_diag, new_MultinomialFit; simpl; decide_R; reflexivity. Qed.

Lemma mn_diag_p (a : R) : mn_p (mn_diag a) = 2%nat.
Proof. reflexivity. Qed.

Lemma mn_diag_facts (a ta : R) :
  ToInt32 (Fin a) = Fin ta ->
  prior_at (mn_prior (mn_diag a)) (mn_classes (mn_diag a)) 0 = Fin (ln (1 / 2)) /\
  prior_at (mn_prior (mn_diag a)) (mn_classes (mn_diag a)) 1 = Fin (ln (1 / 2)) /\
  mget (mn_cprob (mn_diag a)) 0 0 = nsub (nln (Fin (ta + 1))) (nln (Fin (ta + 2))) /\
  mget (mn_cprob (mn_diag a)) 1 0 = nsub (nln (Fin 1)) (nln (Fin (ta + 2))) /\
  mget (mn_cprob (mn_diag a)) 0 1 = Fin (ln 1 - ln 3) /\
  mget (mn_cprob (mn_diag a)) 1 1 = Fin (ln 2 - ln 3).
Proof.
  intro Ha.
  assert (Hcl : unique_first y_diag = [Fin 0; Fin 1]) by (simpl; decide_R; reflexivity).
  assert (Hnd : NoDup [Fin 0; Fin 1]).
  { constructor; [| constructor; [intros [] | constructor]].
    intros [E | []]; injection E; lra. }
  assert (Hr0 : class_rows y_diag 2 (Fin 0) = [0%nat])
    by (unfold class_rows; simpl; decide_R; reflexivity).
  assert (Hr1 : class_rows y_diag 2 (Fin 1) = [1%nat])
    by (unfold class_rows; simpl; decide_R; reflexivity).
  assert (Hz : ToInt32 (Fin 0) = Fin 0)
    by (apply (ToInt32_small 0); lia).
  assert (Ho : ToInt32 (Fin 1) = Fin 1)
    by (apply (ToInt32_small 1); lia).
  unfold mn_diag, new_MultinomialFit, fitMultinomial, prior_at.
  cbn [mn_prior mn_cprob mn_classes]. rewrite Hcl.
  remember (fold_left (fitMultinomial_step (x_diag a) y_diag (mrows (x_diag a))
                         (mcols (x_diag a)) (Fin 1) [Fin 0; Fin 1])
              (seq 0 (length [Fin 0; Fin 1]))
              ([], matrix_zeros (mcols (x_diag a)) (length [Fin 0; Fin 1]))) as st eqn:Hst.
  destruct (fitMultinomial_inv (x_diag a) y_diag 2 2 (Fin 1) [Fin 0; Fin 1] 2 Hnd
              (le_n _) st Hst) as (_ & _ & Hp & Hm).
  pose proof (Hp 0%nat ltac:(lia)) as Hp0; pose proof (Hp 1%nat ltac:(lia)) as Hp1.
  pose proof (Hm 0%nat 0%nat ltac:(lia) ltac:(lia)) as Hm00.
  pose proof (Hm 0%nat 1%nat ltac:(lia) ltac:(lia)) as Hm01.
  pose proof (Hm 1%nat 0%nat ltac:(lia) ltac:(lia)) as Hm10.
  pose proof (Hm 1%nat 1%nat ltac:(lia) ltac:(lia)) as Hm11.
  simpl nth in Hp0, Hp1, Hm00, Hm01, Hm10, Hm11.
  rewrite Hr0 in Hp0, Hm00, Hm01; rewrite Hr1 in Hp1, Hm10, Hm11.
  cbn [nth_error]; rewrite Hp0, Hp1, Hm00, Hm01, Hm10, Hm11.
  unfold cprob_entry, class_counts, mget_col, mget, nsum, nnat.
  cbn [map seq fold_left mdata x_diag nth mcols Nat.mul Nat.add].
  rewrite !nadd_0_l, Ha, Hz, Ho. cbn [length INR nadd nmul ndiv].
  decide_R.
  split; [| split; [| split; [| split; [| split]]]].
  1, 2: cbn [nln]; decide_R; f_equal; f_equal; lra.
  1, 2: repeat f_equal; lra.
  all: cbn [nln]; decide_R; cbn [nsub nadd nneg]; unfold Rminus; repeat f_equal; lra.
Qed.

Lemma mn_diag_nclass (a : R) : mn_nclass (mn_diag a) = 2%nat.
Proof. unfold mn_diag, new_MultinomialFit; simpl; decide_R; reflexivity. Qed.

Lemma ToInt32_2p31 : ToInt32 (Fin 2147483648) = Fin (-2147483648).
Proof.
  unfold ToInt32. rewrite trunc_IZR by lia.
  replace (wrap32 2147483648) with (-2147483648)%Z by reflexivity.
  f_equal; rewrite opp_IZR; reflexivity.
Qed.

(** In [mn_wrap], the whole column of class [0] in [cprob] is [NaN]. *)
Lemma mn_wrap_facts :
  mn_classes mn_wrap = [Fin 0; Fin 1] /\ mn_nclass mn_wrap = 2%nat /\
  mn_p mn_wrap = 2%nat /\
  prior_at (mn_prior mn_wrap) (mn_classes mn_wrap) 0 = Fin (ln (1 / 2)) /\
  prior_at (mn_prior mn_wrap) (mn_classes mn_wrap) 1 = Fin (ln (1 / 2)) /\
  mget (mn_cprob mn_wrap) 0 0 = NaN /\ mget (mn_cprob mn_wrap) 1 0 = NaN /\
  mget (mn_cprob mn_wrap) 0 1 = Fin (ln 1 - ln 3) /\
  mget (mn_cprob mn_wrap) 1 1 = Fin (ln 2 - ln 3).
Proof.
  destruct (mn_diag_facts _ _ ToInt32_2p31) as (P0 & P1 & C00 & C10 & C01 & C11).
  unfold mn_wrap. rewrite P0, P1, C00, C10, C01, C11.
  rewrite mn_diag_classes, mn_diag_nclass, mn_diag_p.
  repeat split; cbn [nln]; decide_R; reflexivity.
Qed.

(** In [mn_id], class [0] has [cprob = [ln 2 - ln 3, ln 1 - ln 3]]. *)
Lemma mn_id_facts :
  mn_classes mn_id = [Fin 0; Fin 1] /\ mn_nclass mn_id = 2%nat /\
  mn_p mn_id = 2%nat /\
  prior_at (mn_prior mn_id) (mn_classes mn_id) 0 = Fin (ln (1 / 2)) /\
  prior_at (mn_prior mn_id) (mn_classes mn_id) 1 = Fin (ln (1 / 2)) /\
  mget (mn_cprob mn_id) 0 0 = Fin (ln 2 - ln 3) /\
  mget (mn_cprob mn_id) 1 0 = Fin (ln 1 - ln 3) /\
  mget (mn_cprob mn_id) 0 1 = Fin (ln 1 - ln 3) /\
  mget (mn_cprob mn_id) 1 1 = Fin (ln 2 - ln 3).
Proof.
  destruct (mn_diag_facts 1 1 ltac:(apply (ToInt32_small 1); lia))
    as (P0 & P1 & C00 & C10 & C01 & C11).
  unfold mn_id. rewrite P0, P1, C00, C10, C01, C11.
  rewrite mn_diag_classes, mn_diag_nclass, mn_diag_p.
  repeat split; cbn [nln]; decide_R; cbn [nsub nadd nneg]; unfold Rminus;
    repeat f_equal; lra.
Qed.

(** The three log-likelihood loops over two features. *)
Lemma mn_loglik_vec_p2 (m : MultinomialFit) (v : list num) (i : nat) :
  mn_p m = 2%nat ->
  mn_loglik_vec m v i
  = nadd (nadd (prior_at (mn_prior m) (mn_classes m) i) (mn_term (mn_cprob m) (vat v 0) 0 i))
         (mn_term (mn_cprob m) (vat v 1) 1 i).
Proof. intro H; unfold mn_loglik_vec; rewrite H; reflexivity. Qed.

Lemma mn_loglik_probs_p2 (m : MultinomialFit) (v : list num) (i : nat) :
  mn_p m = 2%nat ->
  mn_loglik_probs m v i
  = nadd (nadd (prior_at (mn_prior m) (mn_classes m) i) (nmul (vat v 0) (mget (mn_cprob m) 0 i)))
         (nmul (vat v 1) (mget (mn_cprob m) 1 i)).
Proof. intro H; unfold mn_loglik_probs; rewrite H; reflexivity. Qed.

Lemma mn_loglik_mat_p2 (m : MultinomialFit) (x : matrix) (r i : nat) :
  mn_p m = 2%nat ->
  mn_loglik_mat m x r i
  = nadd (nadd (prior_at (mn_prior m) (mn_classes m) i) (mn_term (mn_cprob m) (mget x r 0) 0 i))
         (mn_term (mn_cprob m) (mget x r 1) 1 i).
Proof. intro H; unfold mn_loglik_mat; rewrite H; reflexivity. Qed.

Lemma mn_term_zero (M : matrix) (j i : nat) : mn_term M (Fin 0) j i = Fin 0.
Proof. unfold mn_term; cbn [ntruthy]; decide_R; reflexivity. Qed.

Lemma mn_term_one (M : matrix) (j i : nat) : mn_term M (Fin 1) j i = nmul (Fin 1) (mget M j i).
Proof. unfold mn_term; cbn [ntruthy]; decide_R; reflexivity. Qed.

(** ** Dispatch of [predict] and [predictProbs] *)



Lemma mn_predict_single (m : MultinomialFit) (x : jsval) :
  isArrayArray x = false -> isMatrixLike x = false ->
  mn_predict m x = Ok (mn_predictOne m (vec_of x)).
Proof.
  intros H1 H2; unfold mn_predict; rewrite (matrix_arg_other x H1).
  destruct x; try discriminate; reflexivity.
Qed.

Lemma g_predict_single (g : GaussianFit) (x : jsval) :
  isArrayArray x = false -> isMatrixLike x = false ->
  g_predict g x = Ok (g_predictOne g (vec_of x)).
Proof.
  intros H1 H2; unfold g_predict; rewrite (matrix_arg_other x H1).
  destruct x; try discriminate; reflexivity.
Qed.

Lemma num_array_single (r : list num) :
  isArrayArray (num_array r) = false /\ isMatrixLike (num_array r) = false /\
  vec_of (num_array r) = r.
Proof.
  split; [destruct r; reflexivity | split; [reflexivity |]].
  unfold vec_of, num_array, arr_elems. rewrite map_map. apply map_id.
Qed.

Lemma fold_left_ext_in {A B} (f g : A -> B -> A) (l : list B) (a : A) :
  (forall acc b, In b l -> f acc b = g acc b) -> fold_left f l a = fold_left g l a.
Proof.
  revert a; induction l as [|b l IH]; intros a H; simpl; auto.
  rewrite H by (left; reflexivity). apply IH. intros; apply H; right; assumption.
Qed.

(** With at least [p] columns, the matrix loop of [predict] reads row [i]
    exactly as [predictOne] reads [x.mget( [i], null ).data]. *)
Lemma mn_loglik_mat_row (m : MultinomialFit) (x : matrix) (i j : nat) :
  (mn_p m <= mcols x)%nat ->
  mn_loglik_mat m x i j = mn_loglik_vec m (mget_row x i) j.
Proof.
  intro Hp. unfold mn_loglik_mat, mn_loglik_vec. apply fold_left_ext_in.
  intros acc k Hk. apply in_seq in Hk. unfold vat, mget_row.
  rewrite nth_map_seq_lt by lia. reflexivity.
Qed.

(** ** The fitting loop of the Gaussian model *)

(** The inner loop of [fitGaussian] sets [mu] and [sigma] independently. *)
Lemma fold_pair_mset (f h : nat -> num) (i : nat) (l : list nat) (a b : matrix) :
  fold_left (fun ms j => (mset (fst ms) j i (f j), mset (snd ms) j i (h j))) l (a, b)
  = (fold_left (fun m j => mset m j i (f j)) l a, fold_left (fun m j => mset m j i (h j)) l b).
Proof. revert a b; induction l as [| j l IH]; intros a b; [reflexivity | apply IH]. Qed.

(** After the classes [0 .. t-1], [prior] holds [ln( nc/n )] for each of
    them, and column [i] of [mu] and [sigma] holds the mean and the standard
    deviation of each feature over the rows of class [i]. *)
Lemma fitGaussian_inv (x : matrix) (y : list num) (n p : nat) (classes : list num) (t : nat) :
  NoDup classes -> (t <= length classes)%nat ->
  forall pr mu sg,
  (pr, mu, sg) = fold_left (fitGaussian_step x y n p classes) (seq 0 t)
                   ([], matrix_zeros p (length classes), matrix_zeros p (length classes)) ->
  mcols mu = length classes /\ length (mdata mu) = (p * length classes)%nat /\
  mcols sg = length classes /\ length (mdata sg) = (p * length classes)%nat /\
  (forall i, (i < t)%nat ->
     obj_get pr (nth i classes NaN)
     = Some (nln (ndiv (nnat (length (class_rows y n (nth i classes NaN)))) (nnat n)))) /\
  (forall i j, (i < t)%nat -> (j < p)%nat ->
     mget mu j i = nmean (mget_col x (class_rows y n (nth i classes NaN)) j) /\
     mget sg j i = nstdev (mget_col x (class_rows y n (nth i classes NaN)) j)).
Proof.
  intro Hnd; induction t as [|t IH]; intros Ht pr mu sg Heq.
  - cbn in Heq; injection Heq as -> -> ->.
    cbn; rewrite repeat_length; repeat split; auto; intros; lia.
  - rewrite seq_S, fold_left_app in Heq; cbn [fold_left] in Heq.
    destruct (fold_left (fitGaussian_step x y n p classes) (seq 0 t)
                ([], matrix_zeros p (length classes), matrix_zeros p (length classes)))
      as [[pr0 mu0] sg0] eqn:E0.
    destruct (IH ltac:(lia) pr0 mu0 sg0 eq_refl) as (Hc & Hl & Hc2 & Hl2 & Hp & Hm).
    unfold fitGaussian_step in Heq. rewrite fold_pair_mset in Heq.
    injection Heq as -> -> ->.
    set (ids := class_rows y n (nth t classes NaN)).
    destruct (fold_mset_col mu0 p t (fun j => nmean (mget_col x ids j)) (seq 0 p))
      as (Hc' & Hl' & Hg');
      [rewrite Hl, Hc; reflexivity | rewrite Hc; lia | intros j Hj; apply in_seq in Hj; lia |].
    destruct (fold_mset_col sg0 p t (fun j => nstdev (mget_col x ids j)) (seq 0 p))
      as (Hc2' & Hl2' & Hg2');
      [rewrite Hl2, Hc2; reflexivity | rewrite Hc2; lia | intros j Hj; apply in_seq in Hj; lia |].
    split; [rewrite Hc', Hc; reflexivity |].
    split; [rewrite Hl', Hl; reflexivity |].
    split; [rewrite Hc2', Hc2; reflexivity |].
    split; [rewrite Hl2', Hl2; reflexivity |].
    split.
    + intros i Hi. destruct (Nat.eq_dec i t) as [-> | Hne].
      * apply obj_get_set_same.
      * rewrite obj_get_set_other; [apply Hp; lia |].
        intro E. apply (NoDup_nth classes NaN) in E; [lia | assumption | lia | lia].
    + intros i j Hi Hj. rewrite Hg' by (rewrite ?Hc; lia). rewrite Hg2' by (rewrite ?Hc2; lia).
      destruct (Nat.eq_dec i t) as [-> | Hne].
      * destruct (in_dec Nat.eq_dec j (seq 0 p)) as [_ | Hn]; [split; reflexivity |].
        exfalso; apply Hn, in_seq; lia.
      * apply Hm; lia.
Qed.

(** The fitted Gaussian model, read back through [fitGaussian_inv]. *)
Lemma new_GaussianFit_params (unique : list num -> list num) (x : matrix) (y : list num) (i : nat) :
  NoDup (unique y) -> (i < length (unique y))%nat ->
  let g := new_GaussianFit unique x y in
  let ids := class_rows y (mrows x) (nth i (unique y) NaN) in
  g_p g = mcols x /\ g_classes g = unique y /\
  prior_at (g_prior g) (g_classes g) i = nln (ndiv (nnat (length ids)) (nnat (mrows x))) /\
  (forall j, (j < mcols x)%nat ->
     mget (g_mu g) j i = nmean (mget_col x ids j) /\
     mget (g_sigma g) j i = nstdev (mget_col x ids j)).
Proof.
  intros Hnd Hi g ids. unfold g, new_GaussianFit.
  destruct (fold_left (fitGaussian_step x y (mrows x) (mcols x) (unique y))
              (seq 0 (length (unique y)))
              ([], matrix_zeros (mcols x) (length (unique y)),
               matrix_zeros (mcols x) (length (unique y)))) as [[pr mu] sg] eqn:E.
  destruct (fitGaussian_inv x y (mrows x) (mcols x) (unique y) (length (unique y))
              Hnd (le_n _) pr mu sg (eq_sym E)) as (_ & _ & _ & _ & Hp & Hm).
  cbn [g_p g_classes g_prior g_mu g_sigma].
  split; [reflexivity | split; [reflexivity | split]].
  - unfold prior_at. destruct (nth_error (unique y) i) as [c|] eqn:Ec.
    + specialize (Hp i Hi). rewrite (nth_error_nth _ _ NaN Ec) in Hp. rewrite Hp.
      unfold ids. rewrite (nth_error_nth _ _ NaN Ec). reflexivity.
    + apply nth_error_None in Ec; lia.
  - intros j Hj. apply Hm; assumption.
Qed.

Lemma new_GaussianFit_shape (unique : list num -> list num) (x : matrix) (y : list num) :
  let g := new_GaussianFit unique x y in
  g_n g = mrows x /\ g_nclass g = length (unique y).
Proof.
  unfold new_GaussianFit. destruct fold_left as [[? ?] ?]. split; reflexivity.
Qed.

(** compute-mean and compute-stdev of a single value *)
Lemma nmean_single (a : num) : nmean [a] = a.
Proof.
  destruct a as [r | | |]; unfold nmean, nsum, nnat; cbn; try reflexivity.
  - decide_R. f_equal; field.
  - unfold inf_times; decide_R; reflexivity.
  - unfold inf_times; decide_R; reflexivity.
Qed.

Lemma nstdev_single (a : num) : nstdev [a] = Fin 0.
Proof. reflexivity. Qed.

(** ** The fitted model [g_sym] *)

Lemma g_sym_params :
  g_classes g_sym = [Fin 0; Fin 1] /\ g_nclass g_sym = 2%nat /\ g_p g_sym = 2%nat /\
  (forall i, (i < 2)%nat ->
     prior_at (g_prior g_sym) (g_classes g_sym) i = Fin (ln (2 / 4)) /\
     (forall j, (j < 2)%nat ->
        mget (g_mu g_sym) j i = Fin 1 /\ mget (g_sigma g_sym) j i = Fin (sqrt 2))).
Proof.
  assert (Hcl : unique_first y_sym = [Fin 0; Fin 1]) by (do 4 (cbn; decide_R); reflexivity).
  assert (Hnd : NoDup (unique_first y_sym)).
  { rewrite Hcl. constructor; [| constructor; [intros [] | constructor]].
    intros [E | []]; injection E; lra. }
  assert (Hmean : nmean [Fin 0; Fin 2] = Fin 1).
  { unfold nmean, nsum, nnat; cbn. decide_R. f_equal; field. }
  assert (Hsd : nstdev [Fin 0; Fin 2] = Fin (sqrt 2)).
  { unfold nstdev. cbn [length Nat.ltb Nat.leb]. cbv zeta. rewrite Hmean.
    unfold nsum, nnat; cbn. decide_R. cbn [nsqrt]. decide_R. f_equal; f_equal; field. }
  assert (Hcol : forall c j, (j < 2)%nat ->
     class_rows y_sym (mrows x_sym) c = [0%nat; 1%nat] \/
     class_rows y_sym (mrows x_sym) c = [2%nat; 3%nat] ->
     mget_col x_sym (class_rows y_sym (mrows x_sym) c) j = [Fin 0; Fin 2]).
  { intros c j Hj [-> | ->]; destruct j as [| [| j]]; try lia; reflexivity. }
  destruct (new_GaussianFit_shape unique_first x_sym y_sym) as [_ Hn].
  rewrite Hcl in Hn.
  destruct (new_GaussianFit_params unique_first x_sym y_sym 0 Hnd ltac:(rewrite Hcl; simpl; lia))
    as (Hp & Hc & P0 & M0).
  destruct (new_GaussianFit_params unique_first x_sym y_sym 1 Hnd ltac:(rewrite Hcl; simpl; lia))
    as (_ & _ & P1 & M1).
  fold g_sym in Hp, Hc, P0, M0, P1, M1, Hn. rewrite Hcl in Hc, P0, M0, P1, M1.
  assert (R0 : class_rows y_sym (mrows x_sym) (nth 0 [Fin 0; Fin 1] NaN) = [0%nat; 1%nat])
    by (unfold class_rows; simpl; decide_R; reflexivity).
  assert (R1 : class_rows y_sym (mrows x_sym) (nth 1 [Fin 0; Fin 1] NaN) = [2%nat; 3%nat])
    by (unfold class_rows; simpl; decide_R; reflexivity).
  split; [exact Hc | split; [exact Hn | split; [exact Hp |]]].
  intros i Hi. destruct i as [| [| i]]; [| | lia].
  - rewrite P0, R0. split.
    + unfold nnat; cbn. decide_R. cbn [nln]. decide_R. do 2 f_equal; field.
    + intros j Hj. destruct (M0 j ltac:(simpl; lia)) as [-> ->].
      rewrite Hcol by (assumption || (left; exact R0)). auto.
  - rewrite P1, R1. split.
    + unfold nnat; cbn. decide_R. cbn [nln]. decide_R. do 2 f_equal; field.
    + intros j Hj. destruct (M1 j ltac:(simpl; lia)) as [-> ->].
      rewrite Hcol by (assumption || (right; exact R1)). auto.
Qed.



(** ** Claims *)

(** C1 (multinomNB without [opts]): the guard [arguments > 2] is always
    false, and [opts.alpha || 1] then reads a property of [undefined]; so
    [multinomNB( [[1]], [0] )] throws a TypeError, while a non-numeric
    [opts.alpha] such as ["abc"] is never rejected and reaches the fit. *)
Lemma C1_multinomNB_without_opts_throws :
  multinomNB [x_one; JArr [JNum (Fin 0)]] = Throw TypeError /\
  multinomNB [x_one; JArr [JNum (Fin 0)]; JObj [("alpha"%string, JStr "abc")]]
  = Ok (fill_matrix x_one, JArr [JNum (Fin 0)], JStr "abc").
Proof. split; reflexivity. Qed.

(** C2 (counterexample): with the one-class model fitted on [[ [1] ]],
    predicting two rows gives two labels while [y] has one, and [score]
    still returns [1] instead of failing. *)
Lemma C2_score_length_mismatch_no_error :
  isArrayLike x_two_rows = true /\ isArrayLike (JArr [JNum (Fin 0)]) = true /\
  mn_predict mn_one x_two_rows = Ok (JArr [JNum (Fin 0); JNum (Fin 0)]) /\
  js_length (JArr [JNum (Fin 0)]) = Some 1%nat /\
  score (mn_predict mn_one) x_two_rows (JArr [JNum (Fin 0)]) = Ok (Fin 1).
Proof.
  assert (Hp : mn_predict mn_one x_two_rows = Ok (JArr [JNum (Fin 0); JNum (Fin 0)]))
    by (rewrite (mn_predict_one_class _ (Fin 0)) by reflexivity; reflexivity).
  repeat split; try reflexivity; [exact Hp |].
  rewrite (score_value _ x_two_rows (JArr [JNum (Fin 0)]) _ 1 eq_refl eq_refl Hp).
  unfold match_count; simpl; decide_R; simpl; do 2 f_equal; field.
Qed.

(** C2 (amended): [score] performs no length check.  For array-like [x]
    and [y], when [predict( x )] returns [yhat], [score] returns the number
    of [k < y.length] with [yhat[ k ] === y[ k ]] divided by [y.length],
    whatever the length of [yhat]; a position past the end of an array of
    predictions reads [undefined], which never equals a numeric label. *)
Theorem C2_score_no_length_check (predict : jsval -> result jsval) (x y yhat : jsval) (n : nat) :
  isArrayLike x = true -> js_length y = Some n -> predict x = Ok yhat ->
  score predict x y = Ok (ndiv (nnat (match_count yhat y n)) (nnat n)) /\
  (forall (ys : list jsval) (k : nat) (c : num),
      (length ys <= k)%nat -> strict_eq (js_index (JArr ys) k) (JNum c) = false).
Proof.
  intros Hx Hy Hp; split.
  - apply score_value; assumption.
  - intros ys k c Hk; simpl; rewrite nth_overflow by assumption; reflexivity.
Qed.

Lemma C2_score_no_length_check_witness :
  isArrayLike x_two_rows = true /\ js_length (JArr [JNum (Fin 0)]) = Some 1%nat /\
  mn_predict mn_one x_two_rows = Ok (JArr [JNum (Fin 0); JNum (Fin 0)]) /\
  score (mn_predict mn_one) x_two_rows (JArr [JNum (Fin 0)])
  = Ok (ndiv (nnat (match_count (JArr [JNum (Fin 0); JNum (Fin 0)]) (JArr [JNum (Fin 0)]) 1))
             (nnat 1)).
Proof.
  assert (Hp : mn_predict mn_one x_two_rows = Ok (JArr [JNum (Fin 0); JNum (Fin 0)]))
    by (rewrite (mn_predict_one_class _ (Fin 0)) by reflexivity; reflexivity).
  split; [reflexivity | split; [reflexivity | split; [exact Hp |]]].
  apply (C2_score_no_length_check (mn_predict mn_one) x_two_rows (JArr [JNum (Fin 0)])
           (JArr [JNum (Fin 0); JNum (Fin 0)]) 1 eq_refl eq_refl Hp).
Defined.




(** C10: for a matrix with zero rows, [predictProbs] of either model
    returns [[undefined]]: [new Array( nrow )] ran before [nrow] was
    assigned, and the row loop never overwrites that element. *)
Theorem C10_predictProbs_zero_rows (m : MultinomialFit) (g : GaussianFit)
    (c : nat) (d : list num) :
  mn_predictProbs m (JMat (mkMatrix 0 c d)) = Ok (JArr [JUndef]) /\
  g_predictProbs g (JMat (mkMatrix 0 c d)) = Ok (JArr [JUndef]).
Proof. split; reflexivity. Qed.

(** C5: the Gaussian per-class log-likelihood is
    [prior[classes[i]] + sum_j ( -0.5 ln(2 pi) sigma[j][i]
                                 - 0.5 (v[j] - mu[j][i]) / sigma[j][i] )],
    the formula of the source, for every model and observation. *)
Theorem C5_calcGaussianProb_formula (m : GaussianFit) (v : list num) (i : nat) :
  calcGaussianProb m v i =
  nadd (prior_at (g_prior m) (g_classes m) i)
       (nsum_r (map (fun j =>
          nsub (nmul (nmul (Fin (- (1 / 2))) (nln (Fin (2 * PI)))) (mget (g_sigma m) j i))
               (ndiv (nmul (Fin (1 / 2)) (nsub (vat v j) (mget (g_mu m) j i)))
                     (mget (g_sigma m) j i)))
          (seq 0 (g_p m)))).
Proof.
  unfold calcGaussianProb; rewrite fold_nadd_sum; reflexivity.
Qed.

(** C4 (corrected): for pairwise distinct classes and a class
    [c = classes[i]], the fit has [prior[c] = ln( nc/n )]; and when the
    column sums of [c] are integers in [[0, 2^31)] (so that the
    [Int32Array] of counts stores them unchanged), it has
    [cprob[j][i] = ln( counts[j] + alpha ) - ln( totalCount + p*alpha )]. *)
Theorem C4_fit_prior_cprob (unique : list num -> list num) (x : matrix) (y : list num)
    (alpha : num) (i : nat) :
  NoDup (unique y) ->
  (i < length (unique y))%nat ->
  let m := new_MultinomialFit unique x y alpha in
  let c := nth i (mn_classes m) NaN in
  prior_at (mn_prior m) (mn_classes m) i
  = nln (ndiv (nnat (length (class_rows y (mn_n m) c))) (nnat (mn_n m))) /\
  ((forall j, (j < mcols x)%nat ->
      exists k, class_col_sum x y c j = Fin (IZR k) /\ (0 <= k < 2147483648)%Z) ->
   forall j, (j < mn_p m)%nat ->
     mget (mn_cprob m) j i
     = nsub (nln (nadd (class_col_sum x y c j) alpha))
            (nln (nadd (nsum (map (class_col_sum x y c) (seq 0 (mn_p m))))
                       (nmul (nnat (mn_p m)) alpha)))).
Proof.
  intros Hnd Hi m c.
  destruct (fitMultinomial_inv x y (mrows x) (mcols x) alpha (unique y)
              (length (unique y)) Hnd (le_n _) _ eq_refl) as (_ & _ & Hp & Hm).
  subst m c; unfold new_MultinomialFit, fitMultinomial in *; simpl.
  split.
  - unfold prior_at. destruct (nth_error (unique y) i) as [c|] eqn:E.
    + specialize (Hp i Hi). rewrite (nth_error_nth _ _ NaN E) in Hp |- *.
      rewrite Hp; reflexivity.
    + apply nth_error_None in E; lia.
  - intros Hk j Hj. rewrite Hm by assumption. unfold cprob_entry.
    rewrite class_counts_small by assumption.
    rewrite nth_map_seq_lt by assumption. reflexivity.
Qed.

(** Witness of C4: the two-class, two-feature model fitted on
    [[ [1, 0], [0, 1] ]] with [y = [0, 1]], at class index [0]. *)
Lemma C4_fit_prior_cprob_witness :
  NoDup (unique_first y_diag) /\ (0 < length (unique_first y_diag))%nat /\
  (let m := new_MultinomialFit unique_first (x_diag 1) y_diag (Fin 1) in
   let c := nth 0 (mn_classes m) NaN in
   (forall j, (j < mcols (x_diag 1))%nat ->
      exists k, class_col_sum (x_diag 1) y_diag c j = Fin (IZR k) /\ (0 <= k < 2147483648)%Z) /\
   prior_at (mn_prior m) (mn_classes m) 0
   = nln (ndiv (nnat (length (class_rows y_diag (mn_n m) c))) (nnat (mn_n m))) /\
   (forall j, (j < mn_p m)%nat ->
      mget (mn_cprob m) j 0
      = nsub (nln (nadd (class_col_sum (x_diag 1) y_diag c j) (Fin 1)))
             (nln (nadd (nsum (map (class_col_sum (x_diag 1) y_diag c) (seq 0 (mn_p m))))
                        (nmul (nnat (mn_p m)) (Fin 1)))))).
Proof.
  assert (H1 : NoDup (unique_first y_diag)).
  { unfold y_diag; simpl; decide_R; simpl.
    constructor; [intros [E | []]; injection E; lra | constructor; [intros [] | constructor]]. }
  assert (H2 : (0 < length (unique_first y_diag))%nat) by (unfold y_diag; simpl; decide_R; simpl; lia).
  split; [exact H1 | split; [exact H2 |]].
  destruct (C4_fit_prior_cprob unique_first (x_diag 1) y_diag (Fin 1) 0 H1 H2) as [HP HC].
  cbv zeta.
  assert (Hc : nth 0 (mn_classes (new_MultinomialFit unique_first (x_diag 1) y_diag (Fin 1))) NaN
               = Fin 0) by (unfold y_diag; simpl; decide_R; reflexivity).
  assert (H5 : forall j, (j < mcols (x_diag 1))%nat ->
     exists k, class_col_sum (x_diag 1) y_diag
                 (nth 0 (mn_classes (new_MultinomialFit unique_first (x_diag 1) y_diag (Fin 1))) NaN) j
               = Fin (IZR k) /\ (0 <= k < 2147483648)%Z).
  { intros j Hj. rewrite Hc. simpl in Hj.
    destruct j as [| [| j]]; [exists 1%Z | exists 0%Z | lia];
      (split; [| lia]);
      unfold class_col_sum, class_rows, y_diag, x_diag, mget_col, mget, nsum; simpl;
      decide_R; simpl; f_equal; lra. }
  split; [exact H5 | split; [exact HP | exact (HC H5)]].
Defined.

(** C4 (counterexample): the row [[2^32 + 5, 1]] stores the count [5] in
    the [Int32Array], so [cprob[0][0]] is [ln 6 - ln 8] and not the
    claimed [ln( 2^32 + 6 ) - ln( 2^32 + 8 )]. *)
Lemma C4_fit_int32_wrap :
  mget (mn_cprob mn_big) 0 0 = Fin (ln 6 - ln 8) /\
  nsub (nln (nadd (class_col_sum x_big [Fin 0] (Fin 0) 0) (Fin 1)))
       (nln (nadd (nsum (map (class_col_sum x_big [Fin 0] (Fin 0)) (seq 0 2)))
                  (nmul (nnat 2) (Fin 1))))
  = Fin (ln 4294967302 - ln 4294967304) /\
  ln 6 - ln 8 <> ln 4294967302 - ln 4294967304.
Proof.
  assert (Hnd : NoDup [Fin 0]) by (constructor; [intros [] | constructor]).
  assert (Hr : class_rows [Fin 0] 1 (Fin 0) = [0%nat]).
  { unfold class_rows; simpl; decide_R; reflexivity. }
  split; [| split].
  - destruct (fitMultinomial_inv x_big [Fin 0] 1 2 (Fin 1) [Fin 0] 1 Hnd (le_n _) _ eq_refl)
      as (_ & _ & _ & Hm).
    unfold mn_big, new_MultinomialFit, fitMultinomial; simpl mn_cprob.
    simpl (unique_first _); simpl (mrows _); simpl (mcols _); simpl length.
    rewrite Hm by lia. simpl nth. rewrite Hr.
    unfold cprob_entry, class_counts, mget_col, mget, nsum; simpl.
    rewrite !Rplus_0_l, !trunc_IZR by lia.
    replace (wrap32 4294967301) with 5%Z by reflexivity.
    replace (wrap32 1) with 1%Z by reflexivity.
    decide_R. cbn [nsub nadd nneg].
    replace (5 + 1 + (1 + 1) * 1) with 8 by lra. replace (5 + 1) with 6 by lra.
    reflexivity.
  - unfold class_col_sum; simpl (mrows _); rewrite Hr.
    unfold mget_col, mget, nsum, nnat; simpl.
    rewrite !Rplus_0_l. decide_R. cbn [nsub nadd nneg].
    replace (4294967301 + 1 + (1 + 1) * 1) with 4294967304 by lra.
    replace (4294967301 + 1) with 4294967302 by lra.
    reflexivity.
  - intro E.
    assert (E2 : ln (6 * 4294967304) = ln (8 * 4294967302)).
    { rewrite !ln_mult by lra. lra. }
    apply ln_inv in E2; lra.
Qed.

(** C6 (code bug): in the single-observation case, [predictProbs] computes
    [x[ k ] * cprob.get( k, j )] with no test for [x[ k ] = 0]. In the model
    [mn_wrap], whose [cprob] column of class [0] is [NaN], the observation
    [[0, 0]] gets the log-likelihood [NaN] for class [0] in [predictProbs],
    while [predictOne] and the claimed formula with its zero short-circuit
    give [ln( 1/2 )]. *)
Theorem C6_predictProbs_no_zero_shortcircuit :
  mn_loglik_probs mn_wrap [Fin 0; Fin 0] 0 = NaN /\
  mn_loglik_vec mn_wrap [Fin 0; Fin 0] 0 = Fin (ln (1 / 2)) /\
  nadd (prior_at (mn_prior mn_wrap) (mn_classes mn_wrap) 0)
       (nsum_r (map (fun j => if nstrict_eq (vat [Fin 0; Fin 0] j) (Fin 0) then Fin 0
                              else nmul (vat [Fin 0; Fin 0] j) (mget (mn_cprob mn_wrap) j 0))
                    (seq 0 (mn_p mn_wrap))))
  = Fin (ln (1 / 2)).
Proof.
  destruct mn_wrap_facts as (Hc & Hn & Hp & P0 & P1 & C00 & C10 & C01 & C11).
  split; [| split].
  - rewrite mn_loglik_probs_p2, P0, C00, C10 by exact Hp. reflexivity.
  - rewrite mn_loglik_vec_p2, P0 by exact Hp. cbn [vat nth].
    rewrite !mn_term_zero. cbn [nadd]. f_equal; lra.
  - rewrite Hp, P0. cbn [seq map vat nth nsum_r fold_right nstrict_eq]. decide_R.
    cbn [nadd]. f_equal; lra.
Qed.







(** C9 (corrected): on a matrix with at least [p] columns, the multinomial
    [predict] returns one label per row, in row order, equal to
    [predictOne] of that row; the Gaussian [predict] does so on every
    matrix. A single observation goes to [predictOne], and a one-row matrix
    gives the one-element array of [predict] of its row. *)
Theorem C9_predict_rows (m : MultinomialFit) (g : GaussianFit) (xm : matrix) (v : jsval) :
  (mn_p m <= mcols xm)%nat ->
  isArrayArray v = false -> isMatrixLike v = false ->
  mn_predict m (JMat xm)
  = Ok (JArr (map (fun i => mn_predictOne m (mget_row xm i)) (seq 0 (mrows xm)))) /\
  g_predict g (JMat xm)
  = Ok (JArr (map (fun i => g_predictOne g (mget_row xm i)) (seq 0 (mrows xm)))) /\
  mn_predict m v = Ok (mn_predictOne m (vec_of v)) /\
  g_predict g v = Ok (g_predictOne g (vec_of v)) /\
  (mrows xm = 1%nat ->
   mn_predict m (JMat xm) = Ok (JArr [mn_predictOne m (mget_row xm 0)]) /\
   mn_predict m (num_array (mget_row xm 0)) = Ok (mn_predictOne m (mget_row xm 0)) /\
   g_predict g (JMat xm) = Ok (JArr [g_predictOne g (mget_row xm 0)]) /\
   g_predict g (num_array (mget_row xm 0)) = Ok (g_predictOne g (mget_row xm 0))).
Proof.
  intros Hp Ha Hm.
  assert (Em : mn_predict m (JMat xm)
               = Ok (JArr (map (fun i => mn_predictOne m (mget_row xm i)) (seq 0 (mrows xm))))).
  { unfold mn_predict. rewrite matrix_arg_other by reflexivity.
    cbv beta iota zeta. do 2 f_equal. apply map_ext. intro i.
    unfold mn_predictOne. f_equal. apply map_ext. intro j.
    apply mn_loglik_mat_row; exact Hp. }
  assert (Eg : g_predict g (JMat xm)
               = Ok (JArr (map (fun i => g_predictOne g (mget_row xm i)) (seq 0 (mrows xm)))))
    by (unfold g_predict; rewrite matrix_arg_other by reflexivity; reflexivity).
  split; [exact Em | split; [exact Eg | split; [| split]]].
  - apply mn_predict_single; assumption.
  - apply g_predict_single; assumption.
  - intro H1. destruct (num_array_single (mget_row xm 0)) as (N1 & N2 & N3).
    rewrite Em, Eg, H1, mn_predict_single, g_predict_single, N3 by assumption.
    repeat split; reflexivity.
Qed.

(** Witness of C9: [mn_id] and [g_sym] on the one-row matrix [[ [0, 1] ]]
    and on the observation [[0, 0]]. *)
Lemma C9_predict_rows_witness :
  let xm := mkMatrix 1 2 [Fin 0; Fin 1] in
  let v := JArr [JNum (Fin 0); JNum (Fin 0)] in
  (mn_p mn_id <= mcols xm)%nat /\ isArrayArray v = false /\ isMatrixLike v = false /\
  mn_predict mn_id (JMat xm) = Ok (JArr [mn_predictOne mn_id [Fin 0; Fin 1]]) /\
  g_predict g_sym (JMat xm) = Ok (JArr [g_predictOne g_sym [Fin 0; Fin 1]]) /\
  mn_predict mn_id v = Ok (mn_predictOne mn_id [Fin 0; Fin 0]) /\
  g_predict g_sym v = Ok (g_predictOne g_sym [Fin 0; Fin 0]).
Proof.
  intros xm v.
  assert (H1 : (mn_p mn_id <= mcols xm)%nat) by (simpl; lia).
  assert (H2 : isArrayArray v = false) by reflexivity.
  assert (H3 : isMatrixLike v = false) by reflexivity.
  split; [exact H1 | split; [exact H2 | split; [exact H3 |]]].
  destruct (C9_predict_rows mn_id g_sym xm v H1 H2 H3)
    as (Em & Eg & Ev & Egv & Hone).
  rewrite Em, Eg, Ev, Egv. repeat split; reflexivity.
Defined.

(** C9 (counterexample): [mn_id] was fitted on two features; on the
    one-column matrix [[ [0], [1] ]], [x.get( 0, 1 )] reads the entry of the
    next row, so [predict] labels row [0] with [1], while [predictOne] on
    that row ([[0]]) finds a tie and returns [0]. *)
Lemma C9_predict_narrow_matrix :
  mn_predict mn_id (JMat x_narrow) = Ok (JArr [JNum (Fin 1); JNum (Fin 0)]) /\
  mget_row x_narrow 0 = [Fin 0] /\
  mn_predictOne mn_id (mget_row x_narrow 0) = JNum (Fin 0).
Proof.
  destruct mn_id_facts as (Hc & Hn & Hp & P0 & P1 & C00 & C10 & C01 & C11).
  pose proof ln_1 as L1. pose proof (ln_increasing 1 2 ltac:(lra) ltac:(lra)) as L2.
  split; [| split; [reflexivity |]].
  - unfold mn_predict. rewrite matrix_arg_other by reflexivity.
    cbv beta iota zeta. rewrite Hc. cbn [length seq map mrows x_narrow].
    rewrite !mn_loglik_mat_p2 by exact Hp.
    rewrite P0, P1.
    cbn [mget x_narrow mdata mcols nth Nat.mul Nat.add].
    rewrite !mn_term_zero, !mn_term_one.
    unfold mn_term; cbn [ntruthy].
    rewrite ?C00, ?C10, ?C01, ?C11.
    unfold argmax_scan, argmax_step, label_at; cbn [length seq fold_left nth nth_error fst snd].
    cbn [nadd nmul ngt]. decide_R.
    repeat (cbn [fst snd ngt]; decide_R). reflexivity.
  - unfold mn_predictOne. rewrite Hc. cbn [length seq map].
    rewrite !mn_loglik_vec_p2 by exact Hp.
    change (mget_row x_narrow 0) with [Fin 0]. cbn [vat nth].
    rewrite P0, P1, !mn_term_zero.
    unfold mn_term; cbn [ntruthy].
    unfold argmax_scan, argmax_step, label_at; cbn [length seq fold_left nth nth_error fst snd].
    cbn [nadd nmul ngt]. decide_R.
    repeat (cbn [fst snd ngt]; decide_R). reflexivity.
Qed.

(** * Further properties of the library *)

(** ** Entry points *)

(** The matrix argument of [multinomNB] and [gaussianNB]: an array of
    arrays goes through compute-to-matrix, a matrix is kept, anything else
    is a TypeError. *)
Lemma nb_matrix_arg_cases (x : jsval) :
  let r := if isArrayArray x then toMatrix x
           else match x with JMat m => Ok m | _ => Throw TypeError end in
  ((exists m, r = Ok m) <->
     (isArrayArray x = true /\ is_rectangular x = true) \/ isMatrixLike x = true) /\
  (r = Throw Error <-> isArrayArray x = true /\ is_rectangular x = false) /\
  (forall e, r = Throw e -> e = TypeError \/ e = Error).
Proof.
  cbv zeta. unfold toMatrix.
  destruct (isArrayArray x) eqn:Ha; [destruct (is_rectangular x) eqn:Hr |].
  - assert (Hm : isMatrixLike x = false) by (destruct x; try discriminate; reflexivity).
    split; [split; [intros _; auto | intros _; eauto] |].
    split; [split; [discriminate | intros [_ H]; discriminate] |].
    intros e H; discriminate.
  - assert (Hm : isMatrixLike x = false) by (destruct x; try discriminate; reflexivity).
    split; [split; [intros [m H]; discriminate | intros [[_ H] | H]; congruence] |].
    split; [split; [auto | reflexivity] |].
    intros e H; injection H as <-; auto.
  - destruct x; cbn [isMatrixLike];
      (split; [split; [intros [mm H] | intros [[H _] | H]] |
               split; [split; [intros H | intros [H _]] | intros e H]]);
      try discriminate; try congruence; eauto;
      injection H as <-; auto.
Qed.

(** X2: [gaussianNB( x, y )] succeeds exactly when [x] is a rectangular
    array of arrays or a matrix and [y] is array-like; it throws the plain
    Error of compute-to-matrix exactly when [x] is an array of arrays of
    different lengths, and a TypeError in the other failing cases; it
    passes [y] through unchanged, and further arguments are ignored. *)
Theorem X2_gaussianNB_validation (x y : jsval) (rest : list jsval) :
  ((exists r, gaussianNB (x :: y :: rest) = Ok r) <->
   (((isArrayArray x = true /\ is_rectangular x = true) \/ isMatrixLike x = true) /\
    isArrayLike y = true)) /\
  (gaussianNB (x :: y :: rest) = Throw Error <->
   isArrayArray x = true /\ is_rectangular x = false) /\
  (forall e, gaussianNB (x :: y :: rest) = Throw e -> e = TypeError \/ e = Error) /\
  (forall xm y', gaussianNB (x :: y :: rest) = Ok (xm, y') -> y' = y) /\
  gaussianNB (x :: y :: rest) = gaussianNB [x; y].
Proof.
  destruct (nb_matrix_arg_cases x) as (H1 & H2 & H3). cbv zeta in H1, H2, H3.
  unfold gaussianNB; cbn [nth]; cbv zeta.
  destruct (if isArrayArray x then toMatrix x
            else match x with JMat m => Ok m | _ => Throw TypeError end) as [m | e].
  - assert (Hc : (isArrayArray x = true /\ is_rectangular x = true) \/ isMatrixLike x = true)
      by (apply H1; eauto).
    assert (Hn : ~ (isArrayArray x = true /\ is_rectangular x = false))
      by (intro H; apply H2 in H; discriminate).
    destruct (isArrayLike y); cbn [negb].
    + split; [split; [intros _; auto | intros _; eauto] |].
      split; [split; [discriminate | intro H; contradiction] |].
      split; [intros e H; discriminate | split; [intros xm y' H; congruence | reflexivity]].
    + split; [split; [intros [r H]; discriminate | intros [_ H]; discriminate] |].
      split; [split; [discriminate | intro H; contradiction] |].
      split; [intros e H; injection H as <-; auto |
              split; [intros xm y' H; discriminate | reflexivity]].
  - split; [split; [intros [r H]; discriminate | intros [Hc _]] |].
    + apply H1 in Hc. destruct Hc as [m Hm]; discriminate.
    + split; [split; [intro H; injection H as ->; apply H2; reflexivity |
                      intro H; apply H2 in H; injection H as ->; reflexivity] |].
      split; [intros e' H; injection H as <-; apply H3; reflexivity |
              split; [intros xm y' H; discriminate | reflexivity]].
Qed.

(** X3: [multinomNB] called without an options object ([opts] missing,
    [undefined] or [null]) always throws: the plain Error of
    compute-to-matrix when [x] is an array of arrays of different lengths,
    and otherwise a TypeError, for every [x] and [y]. *)
Theorem X3_multinomNB_no_opts_throws (x y : jsval) :
  let e := if (isArrayArray x && negb (is_rectangular x))%bool then Error else TypeError in
  multinomNB [x; y] = Throw e /\
  multinomNB [x; y; JUndef] = Throw e /\
  multinomNB [x; y; JNull] = Throw e.
Proof.
  cbv zeta. unfold multinomNB, toMatrix; cbn [nth].
  destruct (isArrayArray x); [destruct (is_rectangular x) | destruct x]; cbn;
    try (split; [reflexivity | split; reflexivity]);
    destruct (isArrayLike y); split; try split; reflexivity.
Qed.

(** X4: with an options object, [multinomNB] succeeds exactly when [x] is
    a rectangular array of arrays or a matrix and [y] is array-like; it
    throws the plain Error of compute-to-matrix exactly when [x] is an
    array of arrays of different lengths, and a TypeError in the other
    failing cases; [opts.alpha] is never validated, and the smoothing
    constant passed to the fit is [opts.alpha] when it is truthy and [1]
    otherwise (so [alpha: 0] becomes [1]). *)
Theorem X4_multinomNB_opts_alpha (x y a : jsval) (fs : list (string * jsval)) :
  get_prop (JObj fs) "alpha" = Ok a ->
  ((exists r, multinomNB [x; y; JObj fs] = Ok r) <->
   (((isArrayArray x = true /\ is_rectangular x = true) \/ isMatrixLike x = true) /\
    isArrayLike y = true)) /\
  (multinomNB [x; y; JObj fs] = Throw Error <->
   isArrayArray x = true /\ is_rectangular x = false) /\
  (forall e, multinomNB [x; y; JObj fs] = Throw e -> e = TypeError \/ e = Error) /\
  (forall xm y' al, multinomNB [x; y; JObj fs] = Ok (xm, y', al) ->
     y' = y /\ al = if truthy a then a else JNum (Fin 1)).
Proof.
  intro Hal.
  destruct (nb_matrix_arg_cases x) as (H1 & H2 & H3). cbv zeta in H1, H2, H3.
  unfold multinomNB; cbn [nth]; cbv zeta.
  assert (Hg : ngt arguments_as_number (Fin 2) = false) by reflexivity.
  rewrite Hg, Hal.
  destruct (if isArrayArray x then toMatrix x
            else match x with JMat m => Ok m | _ => Throw TypeError end) as [m | e].
  - assert (Hc : (isArrayArray x = true /\ is_rectangular x = true) \/ isMatrixLike x = true)
      by (apply H1; eauto).
    assert (Hn : ~ (isArrayArray x = true /\ is_rectangular x = false))
      by (intro H; apply H2 in H; discriminate).
    destruct (isArrayLike y); cbn [negb].
    + split; [split; [intros _; auto | intros _; eauto] |].
      split; [split; [discriminate | intro H; contradiction] |].
      split; [intros e H; discriminate | intros xm y' al H; split; congruence].
    + split; [split; [intros [r H]; discriminate | intros [_ H]; discriminate] |].
      split; [split; [discriminate | intro H; contradiction] |].
      split; [intros e H; injection H as <-; auto | intros xm y' al H; discriminate].
  - split; [split; [intros [r H]; discriminate | intros [Hc _]] |].
    + apply H1 in Hc. destruct Hc as [m Hm]; discriminate.
    + split; [split; [intro H; injection H as ->; apply H2; reflexivity |
                      intro H; apply H2 in H; injection H as ->; reflexivity] |].
      split; [intros e' H; injection H as <-; apply H3; reflexivity |
              intros xm y' al H; discriminate].
Qed.

Lemma X4_multinomNB_opts_alpha_witness :
  get_prop (JObj [("alpha"%string, JNum (Fin 0))]) "alpha" = Ok (JNum (Fin 0)) /\
  multinomNB [x_one; JArr [JNum (Fin 0)]; JObj [("alpha"%string, JNum (Fin 0))]]
  = Ok (fill_matrix x_one, JArr [JNum (Fin 0)], JNum (Fin 1)) /\
  multinomNB [x_ragged; JArr [JNum (Fin 0)]; JObj [("alpha"%string, JNum (Fin 0))]]
  = Throw Error /\
  multinomNB [JNum (Fin 1); JArr [JNum (Fin 0)]; JObj [("alpha"%string, JNum (Fin 0))]]
  = Throw TypeError.
Proof.
  assert (H : get_prop (JObj [("alpha"%string, JNum (Fin 0))]) "alpha" = Ok (JNum (Fin 0)))
    by reflexivity.
  split; [exact H | split; [| split]].
  - unfold multinomNB; cbn [nth]; cbv zeta. rewrite H.
    assert (Ht : truthy (JNum (Fin 0)) = false) by (cbn; decide_R; reflexivity).
    rewrite Ht. reflexivity.
  - apply (proj2 (proj1 (proj2 (X4_multinomNB_opts_alpha x_ragged (JArr [JNum (Fin 0)])
                                  (JNum (Fin 0)) _ H)))).
    split; reflexivity.
  - destruct (multinomNB [JNum (Fin 1); JArr [JNum (Fin 0)]; JObj [("alpha"%string, JNum (Fin 0))]])
      as [r | e] eqn:E.
    + destruct (proj1 (proj1 (X4_multinomNB_opts_alpha (JNum (Fin 1)) (JArr [JNum (Fin 0)])
                                 (JNum (Fin 0)) _ H)) (ex_intro _ r E)) as [[[Ha _] | Hm] _];
        discriminate.
    + destruct (proj1 (proj2 (proj2 (X4_multinomNB_opts_alpha (JNum (Fin 1)) (JArr [JNum (Fin 0)])
                                        (JNum (Fin 0)) _ H))) e E) as [-> | ->];
        [reflexivity |].
      apply (proj1 (proj1 (proj2 (X4_multinomNB_opts_alpha (JNum (Fin 1)) (JArr [JNum (Fin 0)])
                                     (JNum (Fin 0)) _ H)))) in E.
      destruct E as [Ha _]; discriminate.
Defined.

(** ** Log-likelihoods and missing features *)

Lemma nadd_nan_r (a : num) : nadd a NaN = NaN.
Proof. destruct a; reflexivity. Qed.

Lemma nadd_nan_l (a : num) : nadd NaN a = NaN.
Proof. reflexivity. Qed.

Lemma fold_nadd_from_nan (f : nat -> num) (l : list nat) :
  fold_left (fun acc j => nadd acc (f j)) l NaN = NaN.
Proof. induction l as [|j l IH]; simpl; auto. Qed.

(** A sum loop with one [NaN] term is [NaN]. *)
Lemma fold_nadd_nan (f : nat -> num) (l : list nat) (acc : num) (j : nat) :
  In j l -> f j = NaN -> fold_left (fun acc j => nadd acc (f j)) l acc = NaN.
Proof.
  revert acc; induction l as [|k l IH]; intros acc Hin Hf; [destruct Hin |].
  simpl. destruct Hin as [-> | Hin].
  - rewrite Hf, nadd_nan_r. apply fold_nadd_from_nan.
  - apply IH; assumption.
Qed.

(** If [logLik[0]] is [NaN], no comparison succeeds and the scan keeps
    [classes[0]]. *)
Lemma argmax_scan_nan_first (classes logLik : list num) :
  nth 0 logLik NaN = NaN -> argmax_scan classes logLik = label_at classes 0.
Proof.
  intro H0. unfold argmax_scan. rewrite H0.
  generalize (seq 0 (length classes)) as l.
  induction l as [|i l IH]; [reflexivity |].
  simpl. unfold argmax_step at 2; simpl.
  replace (ngt (nth i logLik NaN) NaN) with false by (destruct (nth i logLik NaN); reflexivity).
  exact IH.
Qed.

Lemma gauss_term_nan (g : GaussianFit) (j i : nat) : gauss_term g NaN j i = NaN.
Proof. unfold gauss_term, nsub; simpl. apply nadd_nan_r. Qed.

(** X5: in the Gaussian model, an observation whose entry [j < p] is [NaN]
    or missing (an observation shorter than [p]) gets the log-likelihood
    [NaN] for every class, and [predictOne] then returns [classes[0]]. *)
Theorem X5_gauss_nan_feature (g : GaussianFit) (v : list num) (j : nat) :
  (j < g_p g)%nat -> vat v j = NaN ->
  (forall i, calcGaussianProb g v i = NaN) /\
  g_predictOne g v = label_at (g_classes g) 0.
Proof.
  intros Hj Hv.
  assert (Hall : forall i, calcGaussianProb g v i = NaN).
  { intro i. unfold calcGaussianProb.
    apply (fold_nadd_nan (fun j => gauss_term g (vat v j) j i) _ _ j).
    - apply in_seq; lia.
    - cbv beta. rewrite Hv. apply gauss_term_nan. }
  split; [exact Hall |].
  unfold g_predictOne. apply argmax_scan_nan_first.
  destruct (g_classes g) as [| c cs]; [reflexivity |].
  simpl. apply Hall.
Qed.

Lemma X5_gauss_nan_feature_witness :
  (1 < g_p g_sym)%nat /\ vat [Fin 1; NaN] 1 = NaN /\
  (forall i, calcGaussianProb g_sym [Fin 1; NaN] i = NaN) /\
  g_predictOne g_sym [Fin 1; NaN] = label_at (g_classes g_sym) 0.
Proof.
  assert (H1 : (1 < g_p g_sym)%nat)
    by (destruct g_sym_params as (_ & _ & Hp & _); rewrite Hp; lia).
  assert (H2 : vat [Fin 1; NaN] 1 = NaN) by reflexivity.
  split; [exact H1 | split; [exact H2 |]].
  exact (X5_gauss_nan_feature g_sym [Fin 1; NaN] 1 H1 H2).
Defined.

(** X6: in the multinomial model, [predictOne] treats every falsy entry
    ([0], [NaN], or [undefined] past the end of the observation) alike: two
    observations that agree on their truthy entries below [p] get the same
    log-likelihoods and the same prediction. In particular an observation
    shorter than [p] behaves as if padded with zeros. *)
Theorem X6_mn_falsy_features_ignored (m : MultinomialFit) (v w : list num) :
  (forall j, (j < mn_p m)%nat ->
     vat v j = vat w j \/ (ntruthy (vat v j) = false /\ ntruthy (vat w j) = false)) ->
  (forall i, mn_loglik_vec m v i = mn_loglik_vec m w i) /\
  mn_predictOne m v = mn_predictOne m w.
Proof.
  intro H.
  assert (Hl : forall i, mn_loglik_vec m v i = mn_loglik_vec m w i).
  { intro i. unfold mn_loglik_vec. apply fold_left_ext_in.
    intros acc j Hj. apply in_seq in Hj. f_equal.
    destruct (H j ltac:(lia)) as [E | [E1 E2]].
    - rewrite E; reflexivity.
    - unfold mn_term; rewrite E1, E2; reflexivity. }
  split; [exact Hl |].
  unfold mn_predictOne. f_equal. apply map_ext. exact Hl.
Qed.

Lemma X6_mn_falsy_features_ignored_witness :
  (forall j, (j < mn_p mn_id)%nat ->
     vat [Fin 1] j = vat [Fin 1; Fin 0] j \/
     (ntruthy (vat [Fin 1] j) = false /\ ntruthy (vat [Fin 1; Fin 0] j) = false)) /\
  (forall i, mn_loglik_vec mn_id [Fin 1] i = mn_loglik_vec mn_id [Fin 1; Fin 0] i) /\
  mn_predictOne mn_id [Fin 1] = mn_predictOne mn_id [Fin 1; Fin 0].
Proof.
  assert (H : forall j, (j < mn_p mn_id)%nat ->
     vat [Fin 1] j = vat [Fin 1; Fin 0] j \/
     (ntruthy (vat [Fin 1] j) = false /\ ntruthy (vat [Fin 1; Fin 0] j) = false)).
  { intros j Hj. destruct mn_id_facts as (_ & _ & Hp & _).
    rewrite Hp in Hj. destruct j as [| [| j]]; [left; reflexivity | right | lia].
    cbn [vat nth ntruthy]. decide_R. split; reflexivity. }
  split; [exact H |].
  exact (X6_mn_falsy_features_ignored mn_id [Fin 1] [Fin 1; Fin 0] H).
Defined.

(** ** predictProbs on a matrix *)












(** ** predict on an array of arrays *)

Lemma nth_flat_map_block {A B} (f : A -> list B) (rows : list A) (c i k : nat) (d : B) (da : A) :
  (forall r, In r rows -> length (f r) = c) -> (i < length rows)%nat -> (k < c)%nat ->
  nth (i * c + k) (flat_map f rows) d = nth k (f (nth i rows da)) d.
Proof.
  revert i; induction rows as [| r rows IH]; intros i Hl Hi Hk; [simpl in Hi; lia |].
  simpl flat_map. assert (Hr : length (f r) = c) by (apply Hl; left; reflexivity).
  destruct i as [| i].
  - simpl. rewrite app_nth1 by lia. reflexivity.
  - rewrite app_nth2 by (simpl; nia).
    replace (S i * c + k - length (f r))%nat with (i * c + k)%nat by (simpl; lia).
    simpl nth. apply IH; [intros; apply Hl; right; assumption | simpl in Hi; lia | exact Hk].
Qed.

Lemma map_nth_seq_length {A B} (g : A -> B) (l : list A) (d : A) :
  map (fun k => g (nth k l d)) (seq 0 (length l)) = map g l.
Proof.
  induction l as [| a l IH]; [reflexivity |].
  cbn [length seq map nth]. f_equal. rewrite <- seq_shift, map_map. exact IH.
Qed.

(** compute-to-matrix on a rectangular array of arrays keeps every row. *)
Lemma fill_matrix_row (rows : list jsval) (i : nat) :
  Forall (fun r => exists es, r = JArr es /\ length es = length (arr_elems (nth 0 rows JUndef)))
         rows ->
  (i < length rows)%nat ->
  mget_row (fill_matrix (JArr rows)) i = vec_of (nth i rows JUndef).
Proof.
  intros Hall Hi. set (c := length (arr_elems (nth 0 rows JUndef))) in *.
  unfold mget_row, mget, fill_matrix; cbn [arr_elems mcols mdata]. fold c.
  rewrite Forall_forall in Hall.
  destruct (Hall (nth i rows JUndef) (nth_In _ _ Hi)) as (es & Hes & Hlen).
  transitivity (map (fun k => as_num (nth k es JUndef)) (seq 0 c)).
  - apply map_ext_in. intros k Hk. apply in_seq in Hk.
    rewrite (nth_flat_map_block _ _ c i k NaN JUndef).
    + rewrite Hes, nth_map_seq_lt by lia. reflexivity.
    + intros r _. rewrite length_map, length_seq; reflexivity.
    + exact Hi.
    + lia.
  - rewrite Hes, <- Hlen. unfold vec_of; cbn [arr_elems]. apply map_nth_seq_length.
Qed.

(** X8: [predict] on a rectangular array of arrays [rows] returns one
    label per row, in order, equal to [predictOne] of that row; for the
    multinomial model this needs rows of at least [p] entries. *)
Theorem X8_predict_array_of_arrays (m : MultinomialFit) (g : GaussianFit) (rows : list jsval) :
  rows <> [] ->
  Forall (fun r => exists es, r = JArr es /\ length es = length (arr_elems (nth 0 rows JUndef)))
         rows ->
  (mn_p m <= length (arr_elems (nth 0 rows JUndef)))%nat ->
  mn_predict m (JArr rows)
  = Ok (JArr (map (fun i => mn_predictOne m (vec_of (nth i rows JUndef)))
                  (seq 0 (length rows)))) /\
  g_predict g (JArr rows)
  = Ok (JArr (map (fun i => g_predictOne g (vec_of (nth i rows JUndef)))
                  (seq 0 (length rows)))).
Proof.
  intros Hne Hall Hp.
  assert (Ha : isArrayArray (JArr rows) = true).
  { destruct rows as [| r rs]; [congruence |]. unfold isArrayArray.
    apply forallb_forall. intros e He. rewrite Forall_forall in Hall.
    destruct (Hall e He) as (es & -> & _). reflexivity. }
  assert (Hrect : is_rectangular (JArr rows) = true).
  { unfold is_rectangular; cbn [arr_elems]. apply forallb_forall. intros e He.
    rewrite Forall_forall in Hall. destruct (Hall e He) as (es & -> & Hl).
    cbn [arr_elems]. rewrite Hl. apply Nat.eqb_refl. }
  split.
  - unfold mn_predict. rewrite (matrix_arg_rect _ Ha Hrect). f_equal. f_equal.
    change (mrows (fill_matrix (JArr rows))) with (length rows).
    apply map_ext_in. intros i Hi. apply in_seq in Hi.
    unfold mn_predictOne. f_equal. apply map_ext. intro j.
    rewrite mn_loglik_mat_row by exact Hp. rewrite fill_matrix_row by (assumption || lia).
    reflexivity.
  - unfold g_predict. rewrite (matrix_arg_rect _ Ha Hrect). f_equal. f_equal.
    change (mrows (fill_matrix (JArr rows))) with (length rows).
    apply map_ext_in. intros i Hi. apply in_seq in Hi.
    unfold g_predictOne. rewrite fill_matrix_row by (assumption || lia). reflexivity.
Qed.

Lemma X8_predict_array_of_arrays_witness :
  let rows := [JArr [JNum (Fin 1); JNum (Fin 0)]; JArr [JNum (Fin 0); JNum (Fin 1)]] in
  rows <> [] /\
  Forall (fun r => exists es, r = JArr es /\ length es = length (arr_elems (nth 0 rows JUndef)))
         rows /\
  (mn_p mn_id <= length (arr_elems (nth 0 rows JUndef)))%nat /\
  mn_predict mn_id (JArr rows)
  = Ok (JArr (map (fun i => mn_predictOne mn_id (vec_of (nth i rows JUndef)))
                  (seq 0 (length rows)))) /\
  g_predict g_sym (JArr rows)
  = Ok (JArr (map (fun i => g_predictOne g_sym (vec_of (nth i rows JUndef)))
                  (seq 0 (length rows)))).
Proof.
  intro rows.
  assert (H1 : rows <> []) by discriminate.
  assert (H2 : Forall (fun r => exists es, r = JArr es /\
                        length es = length (arr_elems (nth 0 rows JUndef))) rows).
  { repeat constructor; eexists; split; reflexivity. }
  assert (H3 : (mn_p mn_id <= length (arr_elems (nth 0 rows JUndef)))%nat)
    by (destruct mn_id_facts as (_ & _ & Hp & _); rewrite Hp; simpl; lia).
  split; [exact H1 | split; [exact H2 | split; [exact H3 |]]].
  exact (X8_predict_array_of_arrays mn_id g_sym rows H1 H2 H3).
Defined.

(** A feature with [sigma = 0] and a finite [mu = u]: the term of a finite
    entry [t] is [NaN] when [t = u], [-Infinity] when [t > u] and [+Infinity]
    when [t < u] (the second summand divides by zero). *)
Lemma gauss_term_sigma0 (g : GaussianFit) (t u : R) (j i : nat) :
  mget (g_sigma g) j i = Fin 0 -> mget (g_mu g) j i = Fin u ->
  gauss_term g (Fin t) j i
  = if Req_dec_T t u then NaN else if Rlt_dec u t then NInf else PInf.
Proof.
  intros Hs Hm. pose proof PI_RGT_0.
  unfold gauss_term. rewrite Hs, Hm. cbn [nsub nneg nadd nmul nln].
  destruct (Req_dec_T t u) as [E | E]; [| destruct (Rlt_dec u t) as [L | L]].
  - subst u. replace (t + - t) with 0 by ring. rewrite Rmult_0_r.
    cbn [ndiv]. decide_R. unfold inf_times. decide_R. reflexivity.
  - assert (0 < 1 / 2 * (t + - u)) by lra.
    cbn [ndiv]. decide_R. unfold inf_times. decide_R. reflexivity.
  - assert (1 / 2 * (t + - u) < 0) by (destruct (Rtotal_order t u) as [? | [? | ?]]; lra).
    cbn [ndiv]. decide_R. unfold inf_times. decide_R. reflexivity.
Qed.

(** Once a sum loop reaches an infinity [inf], terms equal to [inf] keep it. *)
Lemma fold_nadd_from_inf (f : nat -> num) (l : list nat) (inf : num) :
  inf = NInf \/ inf = PInf -> (forall j, In j l -> f j = inf) ->
  fold_left (fun acc j => nadd acc (f j)) l inf = inf.
Proof.
  intros Hinf; induction l as [| j l IH]; intro Hf; [reflexivity |].
  cbn [fold_left]. rewrite (Hf j (or_introl eq_refl)).
  replace (nadd inf inf) with inf by (destruct Hinf as [-> | ->]; reflexivity).
  apply IH. intros k Hk; apply Hf; right; exact Hk.
Qed.

(** A sum loop from a finite start whose terms are all [inf] is [inf]. *)
Lemma fold_nadd_inf (f : nat -> num) (l : list nat) (acc : num) (inf : num) :
  inf = NInf \/ inf = PInf -> (exists z, acc = Fin z) -> l <> [] ->
  (forall j, In j l -> f j = inf) ->
  fold_left (fun acc j => nadd acc (f j)) l acc = inf.
Proof.
  intros Hinf [z ->] Hne Hf. destruct l as [| j l]; [congruence |].
  cbn [fold_left]. rewrite (Hf j (or_introl eq_refl)).
  replace (nadd (Fin z) inf) with inf by (destruct Hinf as [-> | ->]; reflexivity).
  apply fold_nadd_from_inf; [exact Hinf |]. intros k Hk; apply Hf; right; exact Hk.
Qed.

(** A class that has a training row has a finite prior [ln( nc/n )]. *)
Lemma prior_fin_of_rows (unique : list num -> list num) (x : matrix) (y : list num)
    (i r : nat) :
  NoDup (unique y) -> (i < length (unique y))%nat ->
  class_rows y (mrows x) (nth i (unique y) NaN) = [r] ->
  exists z, prior_at (g_prior (new_GaussianFit unique x y))
                     (g_classes (new_GaussianFit unique x y)) i = Fin z.
Proof.
  intros Hnd Hi Hr.
  destruct (new_GaussianFit_params unique x y i Hnd Hi) as (_ & _ & Hp & _).
  cbv zeta in Hp. rewrite Hp, Hr.
  assert (Hn : (r < mrows x)%nat).
  { assert (In r (class_rows y (mrows x) (nth i (unique y) NaN))) by (rewrite Hr; left; reflexivity).
    unfold class_rows in H. apply filter_In in H. destruct H as [H _]. apply in_seq in H. lia. }
  assert (HN : 0 < INR (mrows x)) by (apply lt_0_INR; lia).
  assert (Hq : 0 < INR 1 / INR (mrows x)) by (apply Rdiv_lt_0_compat; [simpl; lra | exact HN]).
  unfold nnat. cbn [length ndiv]. decide_R. cbn [nln]. decide_R.
  eexists; reflexivity.
Qed.

(** X9: [new GaussianFit( x, y )] stores, for the class [c = classes[i]]
    (with distinct classes), the prior [ln( nc/n )] where [nc] counts the
    rows [j < n] with [y[j] === c], and for each feature [j < p] the mean
    and the sample standard deviation of column [j] over those rows in
    [mu.get( j, i )] and [sigma.get( j, i )]. *)
Theorem X9_fitGaussian_params (unique : list num -> list num) (x : matrix) (y : list num)
    (i j : nat) :
  NoDup (unique y) -> (i < length (unique y))%nat -> (j < mcols x)%nat ->
  let g := new_GaussianFit unique x y in
  let ids := class_rows y (mrows x) (nth i (g_classes g) NaN) in
  prior_at (g_prior g) (g_classes g) i = nln (ndiv (nnat (length ids)) (nnat (g_n g))) /\
  mget (g_mu g) j i = nmean (mget_col x ids j) /\
  mget (g_sigma g) j i = nstdev (mget_col x ids j).
Proof.
  intros Hnd Hi Hj g ids.
  destruct (new_GaussianFit_params unique x y i Hnd Hi) as (_ & Hcl & Hp & Hm).
  fold g in Hcl, Hp, Hm. unfold ids; rewrite Hcl in Hp |- *.
  replace (g_n g) with (mrows x) by (unfold g, new_GaussianFit; destruct fold_left as [[? ?] ?]; reflexivity).
  split; [exact Hp | apply Hm; exact Hj].
Qed.

Lemma X9_fitGaussian_params_witness :
  NoDup (unique_first y_sym) /\ (1 < length (unique_first y_sym))%nat /\
  (0 < mcols x_sym)%nat /\
  (let g := new_GaussianFit unique_first x_sym y_sym in
   let ids := class_rows y_sym (mrows x_sym) (nth 1 (g_classes g) NaN) in
   prior_at (g_prior g) (g_classes g) 1 = nln (ndiv (nnat (length ids)) (nnat (g_n g))) /\
   mget (g_mu g) 0 1 = nmean (mget_col x_sym ids 0) /\
   mget (g_sigma g) 0 1 = nstdev (mget_col x_sym ids 0)).
Proof.
  assert (Hcl : unique_first y_sym = [Fin 0; Fin 1]) by (do 4 (cbn; decide_R); reflexivity).
  assert (H1 : NoDup (unique_first y_sym)).
  { rewrite Hcl. constructor; [| constructor; [intros [] | constructor]].
    intros [E | []]; injection E; lra. }
  assert (H2 : (1 < length (unique_first y_sym))%nat) by (rewrite Hcl; simpl; lia).
  assert (H3 : (0 < mcols x_sym)%nat) by (simpl; lia).
  split; [exact H1 | split; [exact H2 | split; [exact H3 |]]].
  exact (X9_fitGaussian_params unique_first x_sym y_sym 1 0 H1 H2 H3).
Defined.

(** X10: a class with a single training row [r] gets, for every feature
    [j], [mu = x[r][j]] and [sigma = stdev( [x[r][j]] ) = 0]; the division
    by [sigma] then makes its joint log-probability [calcGaussianProb( x, i )]
    [NaN] as soon as one finite entry equals the training value, [-Infinity]
    when every entry is finite and above it, and [+Infinity] when every
    entry is finite and below it. *)
Theorem X10_gauss_single_row_class (unique : list num -> list num) (x : matrix) (y : list num)
    (i r : nat) :
  NoDup (unique y) -> (i < length (unique y))%nat ->
  class_rows y (mrows x) (nth i (unique y) NaN) = [r] ->
  let g := new_GaussianFit unique x y in
  (forall j, (j < mcols x)%nat ->
     mget (g_mu g) j i = mget x r j /\ mget (g_sigma g) j i = Fin 0) /\
  (forall v j t, (j < mcols x)%nat -> vat v j = Fin t -> mget x r j = Fin t ->
     calcGaussianProb g v i = NaN) /\
  ((1 <= mcols x)%nat -> forall v,
     (forall j, (j < mcols x)%nat ->
        exists t u, vat v j = Fin t /\ mget x r j = Fin u /\ u < t) ->
     calcGaussianProb g v i = NInf) /\
  ((1 <= mcols x)%nat -> forall v,
     (forall j, (j < mcols x)%nat ->
        exists t u, vat v j = Fin t /\ mget x r j = Fin u /\ t < u) ->
     calcGaussianProb g v i = PInf).
Proof.
  intros Hnd Hi Hr g.
  destruct (new_GaussianFit_params unique x y i Hnd Hi) as (Hgp & _ & _ & Hm).
  fold g in Hgp, Hm. cbv zeta in Hm. rewrite Hr in Hm.
  assert (Hms : forall j, (j < mcols x)%nat ->
            mget (g_mu g) j i = mget x r j /\ mget (g_sigma g) j i = Fin 0).
  { intros j Hj. destruct (Hm j Hj) as [-> ->]. unfold mget_col; cbn [map].
    rewrite nmean_single, nstdev_single. split; reflexivity. }
  destruct (prior_fin_of_rows unique x y i r Hnd Hi Hr) as [z Hz]. fold g in Hz.
  assert (Hinf : forall inf, inf = NInf \/ inf = PInf -> (1 <= mcols x)%nat -> forall v,
            (forall j, (j < mcols x)%nat -> gauss_term g (vat v j) j i = inf) ->
            calcGaussianProb g v i = inf).
  { intros inf Hinf Hp v Hv. unfold calcGaussianProb. rewrite Hgp.
    apply fold_nadd_inf; [exact Hinf | exists z; exact Hz | |].
    - destruct (mcols x); [lia | discriminate].
    - intros j Hj. apply in_seq in Hj. apply Hv; lia. }
  split; [exact Hms | split; [| split]].
  - intros v j t Hj Hv Hx. unfold calcGaussianProb. apply (fold_nadd_nan _ _ _ j).
    + rewrite Hgp. apply in_seq; lia.
    + destruct (Hms j Hj) as [Mu Sg]. rewrite Hx in Mu. rewrite Hv.
      rewrite (gauss_term_sigma0 g t t j i Sg Mu). decide_R. reflexivity.
  - intros Hp v Hv. apply Hinf; [left; reflexivity | exact Hp |].
    intros j Hj. destruct (Hv j Hj) as (t & u & Ht & Hu & Hlt).
    destruct (Hms j Hj) as [Mu Sg]. rewrite Hu in Mu. rewrite Ht.
    rewrite (gauss_term_sigma0 g t u j i Sg Mu). decide_R. reflexivity.
  - intros Hp v Hv. apply Hinf; [right; reflexivity | exact Hp |].
    intros j Hj. destruct (Hv j Hj) as (t & u & Ht & Hu & Hlt).
    destruct (Hms j Hj) as [Mu Sg]. rewrite Hu in Mu. rewrite Ht.
    rewrite (gauss_term_sigma0 g t u j i Sg Mu). decide_R. reflexivity.
Qed.

Lemma X10_gauss_single_row_class_witness :
  NoDup (unique_first y_single) /\ (1 < length (unique_first y_single))%nat /\
  class_rows y_single (mrows x_single) (nth 1 (unique_first y_single) NaN) = [2%nat] /\
  mget (g_mu g_single) 0 1 = Fin 5 /\ mget (g_sigma g_single) 0 1 = Fin 0 /\
  calcGaussianProb g_single [Fin 5] 1 = NaN /\
  calcGaussianProb g_single [Fin 6] 1 = NInf /\
  calcGaussianProb g_single [Fin 4] 1 = PInf.
Proof.
  assert (Hcl : unique_first y_single = [Fin 0; Fin 1]) by (do 4 (cbn; decide_R); reflexivity).
  assert (H1 : NoDup (unique_first y_single)).
  { rewrite Hcl. constructor; [| constructor; [intros [] | constructor]].
    intros [E | []]; injection E; lra. }
  assert (H2 : (1 < length (unique_first y_single))%nat) by (rewrite Hcl; simpl; lia).
  assert (H3 : class_rows y_single (mrows x_single) (nth 1 (unique_first y_single) NaN) = [2%nat])
    by (rewrite Hcl; unfold class_rows; simpl; decide_R; reflexivity).
  destruct (X10_gauss_single_row_class unique_first x_single y_single 1 2 H1 H2 H3)
    as (Hms & Hnan & Hninf & Hpinf).
  fold g_single in Hms, Hnan, Hninf, Hpinf.
  assert (Hx : mget x_single 2 0 = Fin 5) by reflexivity.
  split; [exact H1 | split; [exact H2 | split; [exact H3 |]]].
  destruct (Hms 0%nat ltac:(simpl; lia)) as [Mu Sg]. rewrite Hx in Mu.
  split; [exact Mu | split; [exact Sg |]].
  split; [| split].
  - exact (Hnan [Fin 5] 0%nat 5 ltac:(simpl; lia) eq_refl Hx).
  - apply Hninf; [simpl; lia |]. intros j Hj. simpl in Hj. replace j with 0%nat by lia.
    exists 6, 5. split; [reflexivity | split; [exact Hx | lra]].
  - apply Hpinf; [simpl; lia |]. intros j Hj. simpl in Hj. replace j with 0%nat by lia.
    exists 4, 5. split; [reflexivity | split; [exact Hx | lra]].
Defined.

(** ** The conditional probabilities of a multinomial class *)

(** A loop of finite non-negative values is a list of reals. *)
Lemma fin_list_of (f : nat -> num) (p : nat) :
  (forall j, (j < p)%nat -> exists r, f j = Fin r /\ 0 <= r) ->
  exists rs, map f (seq 0 p) = map Fin rs /\ Forall (Rle 0) rs /\ length rs = p.
Proof.
  induction p as [| p IH]; intro H; [exists []; repeat split; constructor |].
  destruct IH as (rs & Hm & Hf & Hl); [intros j Hj; apply H; lia |].
  destruct (H p ltac:(lia)) as (r & Hr & Hr0).
  exists (rs ++ [r]). rewrite seq_S, !map_app, Hm; cbn [map Nat.add]; rewrite Hr.
  split; [reflexivity |].
  split; [apply Forall_app; split; [exact Hf | constructor; [exact Hr0 | constructor]] |].
  rewrite length_app, Hl; simpl; lia.
Qed.

Lemma rsum_nonneg (rs : list R) : Forall (Rle 0) rs -> 0 <= rsum rs.
Proof. induction 1; simpl; lra. Qed.

Lemma rsum_map_plus_const (rs : list R) (a : R) :
  rsum (map (fun r => r + a) rs) = rsum rs + INR (length rs) * a.
Proof.
  unfold rsum; induction rs as [| r rs IH]; cbn [map fold_right length]; [simpl; lra |].
  rewrite IH, S_INR. ring.
Qed.

(** [exp( ln( c_j + alpha ) - ln( sum_k c_k + p*alpha ) )] sums to [1]. *)
Lemma rsum_smoothed_one (rs : list R) (a : R) :
  0 < a -> Forall (Rle 0) rs -> rs <> [] ->
  rsum (map (fun r => exp (ln (r + a) + - ln (rsum rs + INR (length rs) * a))) rs) = 1.
Proof.
  intros Ha Hf Hne.
  set (V := rsum rs + INR (length rs) * a).
  assert (HV : 0 < V).
  { unfold V. pose proof (rsum_nonneg rs Hf).
    destruct rs as [| r rs]; [congruence |]. simpl length. rewrite S_INR.
    pose proof (pos_INR (length rs)). nra. }
  rewrite (map_ext_in _ (fun r => (r + a) * / V)).
  - rewrite (rsum_map_mult (fun r => r + a)), rsum_map_plus_const. fold V. field. lra.
  - intros r Hr. rewrite Forall_forall in Hf. specialize (Hf r Hr).
    rewrite exp_plus, exp_Ropp, !exp_ln by lra. reflexivity.
Qed.

(** With counts that fit an [Int32Array], the fitted [cprob] column of a
    class holds the smoothed log-frequencies of the column sums. *)
Lemma mn_cprob_small (unique : list num -> list num) (x : matrix) (y : list num)
    (alpha : num) (i : nat) :
  NoDup (unique y) -> (i < length (unique y))%nat ->
  (forall j, (j < mcols x)%nat ->
     exists k, class_col_sum x y (nth i (unique y) NaN) j = Fin (IZR k)
               /\ (0 <= k < 2147483648)%Z) ->
  let m := new_MultinomialFit unique x y alpha in
  let counts := map (class_col_sum x y (nth i (unique y) NaN)) (seq 0 (mcols x)) in
  mn_p m = mcols x /\
  forall j, (j < mcols x)%nat ->
    mget (mn_cprob m) j i = cprob_entry counts (nsum counts) alpha (mcols x) j.
Proof.
  intros Hnd Hi Hk m counts.
  destruct (fitMultinomial_inv x y (mrows x) (mcols x) alpha (unique y)
              (length (unique y)) Hnd (le_n _) _ eq_refl) as (_ & _ & _ & Hm).
  split; [reflexivity |].
  intros j Hj. unfold m, new_MultinomialFit, fitMultinomial; cbn [mn_cprob].
  rewrite Hm by assumption. unfold counts. rewrite class_counts_small by assumption.
  reflexivity.
Qed.

(** X11: in a fitted multinomial model with distinct classes, a positive
    [alpha] and at least one feature, whenever the column sums of class [i]
    fit in the [Int32Array] of counts, the entries of column [i] of [cprob]
    are the logarithms of a probability distribution over the features:
    [exp( cprob.get( j, i ) )] summed over [j < p] gives [1]. *)
Theorem X11_cprob_column_distribution (unique : list num -> list num) (x : matrix)
    (y : list num) (a : R) (i : nat) :
  NoDup (unique y) -> (i < length (unique y))%nat -> (1 <= mcols x)%nat -> 0 < a ->
  (forall j, (j < mcols x)%nat ->
     exists k, class_col_sum x y (nth i (unique y) NaN) j = Fin (IZR k)
               /\ (0 <= k < 2147483648)%Z) ->
  let m := new_MultinomialFit unique x y (Fin a) in
  nsum (map (fun j => nexp (mget (mn_cprob m) j i)) (seq 0 (mn_p m))) = Fin 1.
Proof.
  intros Hnd Hi Hp Ha Hk m.
  destruct (mn_cprob_small unique x y (Fin a) i Hnd Hi Hk) as (Hmp & Hc).
  fold m in Hmp, Hc. rewrite Hmp.
  set (c := nth i (unique y) NaN) in *.
  destruct (fin_list_of (class_col_sum x y c) (mcols x)) as (rs & Hrs & Hf & Hl).
  { intros j Hj. destruct (Hk j Hj) as (k & Hk1 & Hk2).
    exists (IZR k). split; [exact Hk1 | apply IZR_le; lia]. }
  rewrite (map_ext_in _ (fun j => nexp (cprob_entry (map Fin rs) (nsum (map Fin rs))
                                                     (Fin a) (mcols x) j)))
    by (intros j Hj; apply in_seq in Hj; rewrite Hc, Hrs by lia; reflexivity).
  unfold cprob_entry. rewrite nsum_fin. rewrite <- Hl.
  rewrite <- (length_map Fin rs) at 1.
  rewrite (map_nth_seq_length
             (fun cj => nexp (nsub (nln (nadd cj (Fin a)))
                                   (nln (nadd (Fin (rsum rs)) (nmul (nnat (length rs)) (Fin a))))))
             (map Fin rs) (Fin 0)).
  rewrite map_map.
  assert (HV : 0 < rsum rs + INR (length rs) * a).
  { pose proof (rsum_nonneg rs Hf).
    assert (0 < INR (length rs)) by (apply lt_0_INR; lia). nra. }
  rewrite (map_ext_in _ (fun r => Fin (exp (ln (r + a) + - ln (rsum rs + INR (length rs) * a))))).
  - rewrite <- map_map, nsum_fin, rsum_smoothed_one; [reflexivity | exact Ha | exact Hf |].
    intros ->; simpl in Hl; lia.
  - intros r Hr. rewrite Forall_forall in Hf. specialize (Hf r Hr).
    unfold nnat; cbn [nadd nmul nln]. decide_R. reflexivity.
Qed.

Lemma X11_cprob_column_distribution_witness :
  NoDup (unique_first y_diag) /\ (0 < length (unique_first y_diag))%nat /\
  (1 <= mcols (x_diag 1))%nat /\ 0 < 1 /\
  (forall j, (j < mcols (x_diag 1))%nat ->
     exists k, class_col_sum (x_diag 1) y_diag (nth 0 (unique_first y_diag) NaN) j = Fin (IZR k)
               /\ (0 <= k < 2147483648)%Z) /\
  (let m := new_MultinomialFit unique_first (x_diag 1) y_diag (Fin 1) in
   nsum (map (fun j => nexp (mget (mn_cprob m) j 0)) (seq 0 (mn_p m))) = Fin 1).
Proof.
  assert (H1 : NoDup (unique_first y_diag)).
  { unfold y_diag; simpl; decide_R; simpl.
    constructor; [intros [E | []]; injection E; lra | constructor; [intros [] | constructor]]. }
  assert (H2 : (0 < length (unique_first y_diag))%nat) by (unfold y_diag; simpl; decide_R; simpl; lia).
  assert (H3 : (1 <= mcols (x_diag 1))%nat) by (simpl; lia).
  assert (H4 : 0 < 1) by lra.
  assert (H5 : forall j, (j < mcols (x_diag 1))%nat ->
     exists k, class_col_sum (x_diag 1) y_diag (nth 0 (unique_first y_diag) NaN) j = Fin (IZR k)
               /\ (0 <= k < 2147483648)%Z).
  { intros j Hj. simpl in Hj.
    destruct j as [| [| j]]; [exists 1%Z | exists 0%Z | lia];
      (split; [| lia]);
      unfold class_col_sum, class_rows, y_diag, x_diag, mget_col, mget, nsum; simpl;
      decide_R; simpl; f_equal; lra. }
  split; [exact H1 | split; [exact H2 | split; [exact H3 | split; [exact H4 | split; [exact H5 |]]]]].
  exact (X11_cprob_column_distribution unique_first (x_diag 1) y_diag 1 0 H1 H2 H3 H4 H5).
Defined.

(** ** The class priors *)

Lemma nstrict_eq_true (a b : num) : nstrict_eq a b = true -> a = b.
Proof. destruct a, b; simpl; intro H; try discriminate; decide_R_hyps; congruence. Qed.

Lemma nstrict_eq_self (a : num) : a <> NaN -> nstrict_eq a a = true.
Proof. destruct a; simpl; intro H; try congruence; decide_R; reflexivity. Qed.

Lemma sum_map_add {A} (f h : A -> nat) (l : list A) :
  list_sum (map (fun c => (f c + h c)%nat) l) = (list_sum (map f l) + list_sum (map h l))%nat.
Proof. induction l as [| c l IH]; simpl; [reflexivity | rewrite IH; lia]. Qed.

Lemma count_strict_eq_absent (v : num) (cl : list num) :
  ~ In v cl -> list_sum (map (fun c => if nstrict_eq v c then 1%nat else 0%nat) cl) = 0%nat.
Proof.
  induction cl as [| c cl IH]; intro Hn; [reflexivity |]. simpl.
  destruct (nstrict_eq v c) eqn:E.
  - apply nstrict_eq_true in E; subst; exfalso; apply Hn; left; reflexivity.
  - apply IH; intro H; apply Hn; right; exact H.
Qed.

(** A non-[NaN] label is [===] to exactly one of distinct classes it is among. *)
Lemma count_strict_eq_one (v : num) (cl : list num) :
  NoDup cl -> In v cl -> v <> NaN ->
  list_sum (map (fun c => if nstrict_eq v c then 1%nat else 0%nat) cl) = 1%nat.
Proof.
  induction 1 as [| c cl Hc Hnd IH]; intros Hin Hv; [destruct Hin |]. simpl.
  destruct Hin as [-> | Hin].
  - rewrite nstrict_eq_self by exact Hv. rewrite count_strict_eq_absent by exact Hc. reflexivity.
  - destruct (nstrict_eq v c) eqn:E.
    + apply nstrict_eq_true in E; subst; contradiction.
    + apply IH; assumption.
Qed.

(** When every row [j < n] has a non-[NaN] label among distinct classes,
    the classes' row sets [ids] partition the rows. *)
Lemma sum_class_rows (y : list num) (n : nat) (classes : list num) :
  NoDup classes ->
  (forall j, (j < n)%nat -> exists v, nth_error y j = Some v /\ v <> NaN /\ In v classes) ->
  list_sum (map (fun c => length (class_rows y n c)) classes) = n.
Proof.
  intros Hnd Hcov. unfold class_rows.
  transitivity (length (seq 0 n)); [| apply length_seq].
  assert (H : forall j, In j (seq 0 n) ->
            exists v, nth_error y j = Some v /\ v <> NaN /\ In v classes)
    by (intros j Hj; apply in_seq in Hj; apply Hcov; lia).
  clear Hcov. induction (seq 0 n) as [| j l IH].
  - simpl. clear H Hnd. induction classes as [| c cl IHc]; [reflexivity | exact IHc].
  - destruct (H j (or_introl eq_refl)) as (v & Hv & Hnan & Hin).
    cbn [length].
    rewrite (map_ext (fun c => length (filter _ (j :: l)))
               (fun c => ((if nstrict_eq v c then 1 else 0)
                          + length (filter (fun j => match nth_error y j with
                                                     | Some v => nstrict_eq v c
                                                     | None => false end) l))%nat)).
    + rewrite sum_map_add, count_strict_eq_one by assumption.
      rewrite IH; [reflexivity |]. intros k Hk; apply H; right; exact Hk.
    + intro c. cbn [filter]. rewrite Hv. destruct (nstrict_eq v c); reflexivity.
Qed.

(** [Math.exp( ln( k / n ) )] is [k / n] for [n >= 1], also when [k = 0]. *)
Lemma nexp_nln_ratio (k n : nat) :
  (1 <= n)%nat -> nexp (nln (ndiv (nnat k) (nnat n))) = Fin (INR k / INR n).
Proof.
  intro Hn. assert (Hn' : 0 < INR n) by (apply lt_0_INR; lia).
  assert (H0 : 0 <= INR k / INR n)
    by (apply Rmult_le_pos; [apply pos_INR | left; apply Rinv_0_lt_compat; exact Hn']).
  unfold nnat; cbn [ndiv]. decide_R. cbn [nln]. decide_R; cbn [nexp].
  - f_equal. lra.
  - rewrite exp_ln by assumption. reflexivity.
Qed.

Lemma rsum_ratio (cnt : num -> nat) (n : nat) (cl : list num) :
  (1 <= n)%nat ->
  rsum (map (fun c => INR (cnt c) / INR n) cl) = INR (list_sum (map cnt cl)) / INR n.
Proof.
  intro Hn. assert (Hn' : 0 < INR n) by (apply lt_0_INR; lia).
  induction cl as [| c cl IH]; simpl; [field; lra |].
  rewrite IH, plus_INR. field. lra.
Qed.

(** The priors [ln( nc/n )] of distinct classes that cover every row. *)
Lemma prior_sum_one (classes y : list num) (n : nat) (P : nat -> num) :
  NoDup classes -> (1 <= n)%nat ->
  (forall j, (j < n)%nat -> exists v, nth_error y j = Some v /\ v <> NaN /\ In v classes) ->
  (forall i, (i < length classes)%nat ->
     P i = nln (ndiv (nnat (length (class_rows y n (nth i classes NaN)))) (nnat n))) ->
  nsum (map (fun i => nexp (P i)) (seq 0 (length classes))) = Fin 1.
Proof.
  intros Hnd Hn Hcov HP.
  rewrite (map_ext_in _ (fun i => (fun c => Fin (INR (length (class_rows y n c)) / INR n))
                                   (nth i classes NaN))).
  - rewrite (map_nth_seq_length (fun c => Fin (INR (length (class_rows y n c)) / INR n))
                                 classes NaN).
    rewrite <- (map_map (fun c => INR (length (class_rows y n c)) / INR n) Fin).
    rewrite nsum_fin, rsum_ratio by exact Hn. rewrite sum_class_rows by assumption.
    f_equal. field. apply not_0_INR. lia.
  - intros i Hi. apply in_seq in Hi. rewrite HP by lia. apply nexp_nln_ratio; exact Hn.
Qed.

Lemma new_MultinomialFit_prior (unique : list num -> list num) (x : matrix) (y : list num)
    (alpha : num) (i : nat) :
  NoDup (unique y) -> (i < length (unique y))%nat ->
  let m := new_MultinomialFit unique x y alpha in
  prior_at (mn_prior m) (mn_classes m) i
  = nln (ndiv (nnat (length (class_rows y (mrows x) (nth i (unique y) NaN)))) (nnat (mrows x))).
Proof.
  intros Hnd Hi m.
  destruct (fitMultinomial_inv x y (mrows x) (mcols x) alpha (unique y)
              (length (unique y)) Hnd (le_n _) _ eq_refl) as (_ & _ & Hp & _).
  unfold m, new_MultinomialFit, fitMultinomial in *; cbn [mn_prior mn_classes].
  unfold prior_at. destruct (nth_error (unique y) i) as [c|] eqn:E.
  - specialize (Hp i Hi). rewrite (nth_error_nth _ _ NaN E) in Hp |- *. rewrite Hp; reflexivity.
  - apply nth_error_None in E; lia.
Qed.

(** X12: when every one of the [n >= 1] training rows carries a non-[NaN]
    label among distinct classes, the fitted priors of both models are the
    logarithms of a probability distribution over the classes:
    [exp( prior[ classes[i] ] )] summed over the classes gives [1]. *)
Theorem X12_priors_distribution (unique : list num -> list num) (x : matrix) (y : list num)
    (alpha : num) :
  NoDup (unique y) -> (1 <= mrows x)%nat ->
  (forall j, (j < mrows x)%nat ->
     exists v, nth_error y j = Some v /\ v <> NaN /\ In v (unique y)) ->
  let m := new_MultinomialFit unique x y alpha in
  let g := new_GaussianFit unique x y in
  nsum (map (fun i => nexp (prior_at (mn_prior m) (mn_classes m) i)) (seq 0 (mn_nclass m)))
  = Fin 1 /\
  nsum (map (fun i => nexp (prior_at (g_prior g) (g_classes g) i)) (seq 0 (g_nclass g)))
  = Fin 1.
Proof.
  intros Hnd Hn Hcov m g. split.
  - change (mn_nclass m) with (length (unique y)).
    apply (prior_sum_one (unique y) y (mrows x)); try assumption.
    intros i Hi. apply new_MultinomialFit_prior; assumption.
  - destruct (new_GaussianFit_shape unique x y) as (_ & Hnc). fold g in Hnc. rewrite Hnc.
    apply (prior_sum_one (unique y) y (mrows x)); try assumption.
    intros i Hi. destruct (new_GaussianFit_params unique x y i Hnd Hi) as (_ & _ & Hp & _).
    exact Hp.
Qed.

Lemma X12_priors_distribution_witness :
  NoDup (unique_first y_diag) /\ (1 <= mrows (x_diag 1))%nat /\
  (forall j, (j < mrows (x_diag 1))%nat ->
     exists v, nth_error y_diag j = Some v /\ v <> NaN /\ In v (unique_first y_diag)) /\
  (let m := new_MultinomialFit unique_first (x_diag 1) y_diag (Fin 1) in
   let g := new_GaussianFit unique_first (x_diag 1) y_diag in
   nsum (map (fun i => nexp (prior_at (mn_prior m) (mn_classes m) i)) (seq 0 (mn_nclass m)))
   = Fin 1 /\
   nsum (map (fun i => nexp (prior_at (g_prior g) (g_classes g) i)) (seq 0 (g_nclass g)))
   = Fin 1).
Proof.
  assert (H1 : NoDup (unique_first y_diag)).
  { unfold y_diag; simpl; decide_R; simpl.
    constructor; [intros [E | []]; injection E; lra | constructor; [intros [] | constructor]]. }
  assert (H2 : (1 <= mrows (x_diag 1))%nat) by (simpl; lia).
  assert (H3 : forall j, (j < mrows (x_diag 1))%nat ->
     exists v, nth_error y_diag j = Some v /\ v <> NaN /\ In v (unique_first y_diag)).
  { intros j Hj. simpl in Hj. unfold y_diag; simpl; decide_R; simpl.
    destruct j as [| [| j]]; [exists (Fin 0) | exists (Fin 1) | lia];
      (split; [reflexivity | split; [discriminate | simpl; tauto]]). }
  split; [exact H1 | split; [exact H2 | split; [exact H3 |]]].
  exact (X12_priors_distribution unique_first (x_diag 1) y_diag (Fin 1) H1 H2 H3).
Defined.

(** ** The labels returned by predictOne and predict *)

(** [v] is [classes[ k ]] for some class [k] *)
Definition is_class_label (classes : list num) (v : jsval) : Prop :=
  exists c, In c classes /\ v = JNum c.

Lemma label_at_class (classes : list num) (k : nat) :
  (k < length classes)%nat -> is_class_label classes (label_at classes k).
Proof.
  intro Hk. unfold label_at. destruct (nth_error classes k) as [c|] eqn:E.
  - exists c. split; [apply nth_error_In with k; exact E | reflexivity].
  - apply nth_error_None in E; lia.
Qed.

(** The argmax loop only ever stores [classes[ i ]] for [i < nClasses]. *)
Lemma argmax_scan_class (classes logLik : list num) :
  classes <> [] -> is_class_label classes (argmax_scan classes logLik).
Proof.
  intro Hne.
  assert (H : forall l st, (forall i, In i l -> (i < length classes)%nat) ->
            (exists k, (k < length classes)%nat /\ snd st = label_at classes k) ->
            exists k, (k < length classes)%nat /\
              snd (fold_left (argmax_step classes logLik) l st) = label_at classes k).
  { induction l as [| i l IH]; intros st Hl Hst; [exact Hst |].
    cbn [fold_left]. apply IH; [intros j Hj; apply Hl; right; exact Hj |].
    unfold argmax_step. destruct (ngt _ _).
    - exists i; split; [apply Hl; left; reflexivity | reflexivity].
    - exact Hst. }
  destruct (H (seq 0 (length classes)) (nth 0 logLik NaN, label_at classes 0))
    as (k & Hk & Heq).
  - intros i Hi; apply in_seq in Hi; lia.
  - exists 0%nat; split; [destruct classes; [congruence | simpl; lia] | reflexivity].
  - unfold argmax_scan. rewrite Heq. apply label_at_class; exact Hk.
Qed.

(** X13: a fitted model with at least one class never predicts a label it
    was not trained on, whatever the input (also [NaN] log-likelihoods):
    [predictOne( x )] is one of [classes], and [predict( x )] is either an
    array of entries of [classes] (matrix or array-of-arrays input) or a
    single entry of [classes]. *)
Theorem X13_predict_labels_in_classes (m : MultinomialFit) (g : GaussianFit) :
  mn_classes m <> [] -> g_classes g <> [] ->
  (forall v, is_class_label (mn_classes m) (mn_predictOne m v)) /\
  (forall x r, mn_predict m x = Ok r ->
     (exists ls, r = JArr ls /\ Forall (is_class_label (mn_classes m)) ls)
     \/ is_class_label (mn_classes m) r) /\
  (forall v, is_class_label (g_classes g) (g_predictOne g v)) /\
  (forall x r, g_predict g x = Ok r ->
     (exists ls, r = JArr ls /\ Forall (is_class_label (g_classes g)) ls)
     \/ is_class_label (g_classes g) r).
Proof.
  intros Hm Hg. split; [| split; [| split]].
  - intro v. apply argmax_scan_class; exact Hm.
  - intros x r H. unfold mn_predict in H.
    destruct (matrix_arg x) as [[| | | | | | xm |] | e]; try discriminate H;
      injection H as <-; try (right; apply argmax_scan_class; exact Hm).
    left. eexists; split; [reflexivity |].
    apply Forall_forall. intros l Hl. apply in_map_iff in Hl. destruct Hl as (i & <- & _).
    apply argmax_scan_class; exact Hm.
  - intro v. apply argmax_scan_class; exact Hg.
  - intros x r H. unfold g_predict in H.
    destruct (matrix_arg x) as [[| | | | | | xm |] | e]; try discriminate H;
      injection H as <-; try (right; apply argmax_scan_class; exact Hg).
    left. eexists; split; [reflexivity |].
    apply Forall_forall. intros l Hl. apply in_map_iff in Hl. destruct Hl as (i & <- & _).
    apply argmax_scan_class; exact Hg.
Qed.

Lemma X13_predict_labels_in_classes_witness :
  mn_classes mn_id <> [] /\ g_classes g_sym <> [] /\
  (forall v, is_class_label (mn_classes mn_id) (mn_predictOne mn_id v)) /\
  (forall x r, mn_predict mn_id x = Ok r ->
     (exists ls, r = JArr ls /\ Forall (is_class_label (mn_classes mn_id)) ls)
     \/ is_class_label (mn_classes mn_id) r) /\
  (forall v, is_class_label (g_classes g_sym) (g_predictOne g_sym v)) /\
  (forall x r, g_predict g_sym x = Ok r ->
     (exists ls, r = JArr ls /\ Forall (is_class_label (g_classes g_sym)) ls)
     \/ is_class_label (g_classes g_sym) r).
Proof.
  assert (H1 : mn_classes mn_id <> [])
    by (destruct mn_id_facts as (Hc & _); rewrite Hc; discriminate).
  assert (H2 : g_classes g_sym <> [])
    by (destruct g_sym_params as (Gc & _); rewrite Gc; discriminate).
  split; [exact H1 | split; [exact H2 |]].
  exact (X13_predict_labels_in_classes mn_id g_sym H1 H2).
Defined.
